(** * dt-elysia-nest: the WebSocket manager, the message handlers and the
    organisation module

    A shallow embedding of
    - the WebSocket manager, the WebSocket handler and the message handlers
      of README.md (websocket-manager.js, websocket.js, messageHandlers.js),
    - the organisation service and controller
      (modules/organisations/organisation.service.ts and
      organisation.controller.ts).

    JavaScript code is embedded in a state-and-exception monad: a statement
    transforms the state it can reach and completes either normally or
    abruptly with a thrown value; the effects performed before a throw
    stay. *)

From Stdlib Require Import String Ascii List ZArith Bool DecimalString.
Import ListNotations.
Open Scope string_scope.
Open Scope list_scope.

#[local] Set Warnings "-register-all".

(* ------------------------------------------------------------------ *)
(** ** JavaScript values *)

(** The values the code handles: what [JSON.parse] produces, plus
    [undefined] (the value of an absent property).  Numbers are the
    integer-valued ones; the fields of an object have distinct names. *)
Inductive JValue : Type :=
| JUndefined
| JNull
| JBool (b : bool)
| JNum (n : Z)
| JStr (s : string)
| JArr (items : list JValue)
| JObj (fields : list (string * JValue)).

(** ToBoolean, as used by [if (ws)], [!user], [!result]. *)
Definition truthy (v : JValue) : bool :=
  match v with
  | JUndefined | JNull => false
  | JBool b => b
  | JNum n => negb (n =? 0)%Z
  | JStr s => negb (s =? EmptyString)
  | JArr _ | JObj _ => true
  end.

(** [v === 'text'] for a string literal. *)
Definition strict_eq_str (v : JValue) (text : string) : bool :=
  match v with
  | JStr s => s =? text
  | _ => false
  end.

Fixpoint own_field (k : string) (fields : list (string * JValue)) : JValue :=
  match fields with
  | [] => JUndefined
  | (k', v) :: rest => if k' =? k then v else own_field k rest
  end.

(** Thrown values. *)
Inductive Exn : Type :=
| TypeError (msg : string)
| Error (msg : string).

(* ------------------------------------------------------------------ *)
(** ** Statements: state and exceptions *)

Inductive Completion (A : Type) : Type :=
| Normal (a : A)
| Abrupt (e : Exn).
Arguments Normal {A} a.
Arguments Abrupt {A} e.

Definition M (S A : Type) : Type := S -> Completion A * S.

Definition ret {S A} (a : A) : M S A := fun s => (Normal a, s).

Definition throw {S A} (e : Exn) : M S A := fun s => (Abrupt e, s).

Definition bind {S A B} (c : M S A) (k : A -> M S B) : M S B :=
  fun s =>
    match c s with
    | (Normal a, s') => k a s'
    | (Abrupt e, s') => (Abrupt e, s')
    end.

(** [try { body } catch (error) { handler }]. *)
Definition try_catch {S A} (body : M S A) (handler : Exn -> M S A) : M S A :=
  fun s =>
    match body s with
    | (Normal a, s') => (Normal a, s')
    | (Abrupt e, s') => handler e s'
    end.

Declare Scope js_scope.
Delimit Scope js_scope with js.
Notation "x <- c1 ;; c2" := (bind c1 (fun x => c2))
  (at level 61, c1 at next level, right associativity) : js_scope.
Notation "c1 ;; c2" := (bind c1 (fun _ => c2))
  (at level 61, right associativity) : js_scope.
Open Scope js_scope.

(** [o.k] for a property [k] that no built-in prototype defines (here
    [action] and [payload]): a TypeError on [null] and [undefined], the
    own field of an object, [undefined] on every other value. *)
Definition get_prop {S} (o : JValue) (k : string) : M S JValue :=
  match o with
  | JUndefined =>
      throw (TypeError ("Cannot read properties of undefined (reading '" ++ k ++ "')")%string)
  | JNull =>
      throw (TypeError ("Cannot read properties of null (reading '" ++ k ++ "')")%string)
  | JObj fields => ret (own_field k fields)
  | _ => ret JUndefined
  end.

(* ------------------------------------------------------------------ *)
(** ** A JavaScript [Map] with string keys

    Entries are kept in insertion order, which is the order [forEach]
    visits them in; [set] on a present key replaces the value in place. *)

Definition JsMap (V : Type) : Type := list (string * V).

Fixpoint map_set {V} (k : string) (v : V) (m : JsMap V) : JsMap V :=
  match m with
  | [] => [(k, v)]
  | (k', v') :: rest =>
      if k' =? k then (k, v) :: rest else (k', v') :: map_set k v rest
  end.

Fixpoint map_get {V} (k : string) (m : JsMap V) : option V :=
  match m with
  | [] => None
  | (k', v') :: rest => if k' =? k then Some v' else map_get k rest
  end.

Definition map_delete {V} (k : string) (m : JsMap V) : JsMap V :=
  filter (fun e => negb (fst e =? k)) m.

(** The keys of a [Map] are pairwise distinct. *)
Definition map_wf {V} (m : JsMap V) : Prop := NoDup (map fst m).

(** [m.forEach(f)], for a callback that leaves [m] itself alone. *)
Fixpoint forEach {S V} (f : V -> M S unit) (m : JsMap V) : M S unit :=
  match m with
  | [] => ret tt
  | (_, v) :: rest => f v ;; forEach f rest
  end.

(* ------------------------------------------------------------------ *)
(** ** The WebSocket layer *)

(** A connection object as the manager uses it: it has a [send] method,
    which returns or throws. *)
Record WebSocket : Type := mkWebSocket {
  ws_name : string;
  send_outcome : JValue -> option Exn
}.

Inductive ServiceOp : Type :=
| userService_updateUser
| userService_createUser
| productService_updateProduct
| productService_createProduct.

(** What the layer does to the outside, in order. *)
Inductive Event : Type :=
| Log (args : list JValue)                    (* console.log(...args) *)
| Stringify (v : JValue)                      (* JSON.stringify(v) evaluated *)
| Send (ws : WebSocket) (payload : JValue)    (* ws.send(payload) called *)
| ServiceCall (op : ServiceOp) (id : string) (payload : JValue).

(** [connections] is the module-level [Map] of websocket-manager.js. *)
Record World : Type := mkWorld {
  connections : JsMap WebSocket;
  trace : list Event
}.

Definition emit (e : Event) : M World unit :=
  fun w => (Normal tt, mkWorld (connections w) (trace w ++ [e])).

Definition console_log (args : list JValue) : M World unit := emit (Log args).

(** [ws.send(payload)]. *)
Definition ws_send (ws : WebSocket) (payload : JValue) : M World unit :=
  emit (Send ws payload) ;;
  match send_outcome ws payload with
  | None => ret tt
  | Some e => throw e
  end.

(** The inbound message, validated by the [body] schema of the route. *)
Record Envelope : Type := mkEnvelope {
  type : string;
  id : string;
  data : JValue
}.

Section WebSocketLayer.

(** [JSON.stringify], a pure function of the value it is given. *)
Variable JSON_stringify : JValue -> JValue.

(** The services of userService.js and productService.js, which the
    repository does not contain: a call returns or throws. *)
Variable service_outcome : ServiceOp -> string -> JValue -> option Exn.

Definition stringify (v : JValue) : M World JValue :=
  emit (Stringify v) ;; ret (JSON_stringify v).

Definition call_service (op : ServiceOp) (id : string) (payload : JValue)
  : M World unit :=
  emit (ServiceCall op id payload) ;;
  match service_outcome op id payload with
  | None => ret tt
  | Some e => throw e
  end.

(** *** websocket-manager.js *)

Definition addConnection (id : string) (ws : WebSocket) : M World unit :=
  fun w => (Normal tt, mkWorld (map_set id ws (connections w)) (trace w)).

Definition removeConnection (id : string) : M World unit :=
  fun w => (Normal tt, mkWorld (map_delete id (connections w)) (trace w)).

Definition getConnection (id : string) : M World (option WebSocket) :=
  fun w => (Normal (map_get id (connections w)), w).

Definition sendToConnection (id : string) (message : JValue) : M World unit :=
  ws <- getConnection id ;;
  match ws with
  | Some ws => s <- stringify message ;; ws_send ws s
  | None => console_log [JStr ("No connection found for id: " ++ id)%string]
  end.

Definition broadcast (message : JValue) : M World unit :=
  fun w =>
    forEach (fun ws => s <- stringify message ;; ws_send ws s)
            (connections w) w.

(** *** messageHandlers.js *)

Definition handleUserMessage (id : string) (data : JValue) : M World unit :=
  (action <- get_prop data "action" ;;
   if strict_eq_str action "update" then
     payload <- get_prop data "payload" ;;
     call_service userService_updateUser id payload
   else
     action' <- get_prop data "action" ;;
     if strict_eq_str action' "create" then
       payload <- get_prop data "payload" ;;
       call_service userService_createUser id payload
     else ret tt) ;;
  payload <- get_prop data "payload" ;;
  broadcast
    (JObj [("type", JStr "user");
           ("id", JStr id);
           ("data", JObj [("action", JStr "user_updated");
                          ("payload", payload)])]).

Definition handleProductMessage (id : string) (data : JValue) : M World unit :=
  (action <- get_prop data "action" ;;
   if strict_eq_str action "update" then
     payload <- get_prop data "payload" ;;
     call_service productService_updateProduct id payload
   else
     action' <- get_prop data "action" ;;
     if strict_eq_str action' "create" then
       payload <- get_prop data "payload" ;;
       call_service productService_createProduct id payload
     else ret tt) ;;
  payload <- get_prop data "payload" ;;
  broadcast
    (JObj [("type", JStr "product");
           ("id", JStr id);
           ("data", JObj [("action", JStr "product_updated");
                          ("payload", payload)])]).

(** *** websocket.js: the handlers of the [/ws] route *)

Definition open (ws : WebSocket) : M World unit :=
  console_log [JStr "Client connected"] ;;
  ws_send ws (JObj [("type", JStr "info");
                    ("message", JStr "Connection established")]).

Definition message (ws : WebSocket) (envelope : Envelope) : M World unit :=
  if type envelope =? "user" then
    handleUserMessage (id envelope) (data envelope)
  else if type envelope =? "product" then
    handleProductMessage (id envelope) (data envelope)
  else
    console_log [JStr "Unknown message type:"; JStr (type envelope)].

Definition close (ws : WebSocket) : M World unit :=
  console_log [JStr "Client disconnected"].

End WebSocketLayer.


(* ------------------------------------------------------------------ *)
(** ** The organisation module *)

Section OrganisationModule.

(** The state behind the Mongoose model. *)
Variable Db : Type.

(** The calls on [OrganizationModel] (mongoose.model('organisations', ...)):
    library code, each of which resolves to a value or rejects. *)
Variable OrganizationModel_find : M Db JValue.
Variable OrganizationModel_findById : string -> M Db JValue.
Variable OrganizationModel_deleteOne : string -> M Db JValue.
Variable OrganizationModel_create : JValue -> M Db JValue.

(** *** organisation.service.ts *)

Definition getOrganization : M Db JValue :=
  OrganizationModel_find.

Definition getOrganizationById (id : string) : M Db JValue :=
  try_catch
    (result <- OrganizationModel_findById id ;; ret result)
    (fun error => ret JNull).

Definition updateOrganizationById (id : string) : JValue :=
  JObj [("id", JStr id); ("name", JStr ("Product" ++ id)%string)].

Definition deleteOrganizationById (id : string) : M Db JValue :=
  try_catch
    (result <- OrganizationModel_deleteOne id ;; ret result)
    (fun error => ret JNull).

Definition createOrganization (org : JValue) : M Db JValue :=
  OrganizationModel_create org.

(** *** organisation.controller.ts *)

(** What a route handler reaches: the storage and [set.status]. *)
Record Context : Type := mkContext {
  db : Db;
  set_status : Z
}.

Definition await_service {A} (c : M Db A) : M Context A :=
  fun ctx =>
    match c (db ctx) with
    | (r, d) => (r, mkContext d (set_status ctx))
    end.

Definition assign_status (code : Z) : M Context unit :=
  fun ctx => (Normal tt, mkContext (db ctx) code).

(** The four routes under the prefix [organizations], with the part of the
    request each handler reads. *)
Inductive Request : Type :=
| GET_all                              (* GET  /      *)
| GET_by_id (params_id : string)       (* GET  /:id   *)
| POST_create (body : JValue)          (* POST /create, body: newOrg *)
| POST_delete (body_id : string).      (* POST /delete, body: byId   *)

Definition organizationController (req : Request) : M Context JValue :=
  match req with
  | GET_all => await_service getOrganization
  | GET_by_id params_id =>
      user <- await_service (getOrganizationById params_id) ;;
      if negb (truthy user) then
        assign_status 400 ;;
        ret (JObj [("message", JStr "Id not found")])
      else ret user
  | POST_create body => await_service (createOrganization body)
  | POST_delete body_id =>
      result <- await_service (deleteOrganizationById body_id) ;;
      if negb (truthy result) then
        assign_status 400 ;;
        ret (JStr "Id not found")
      else
        ret (JObj [("message", JStr "Record Deleted"); ("data", result)])
  end.

End OrganisationModule.

Arguments db {Db} _.
Arguments set_status {Db} _.
Arguments mkContext {Db} _ _.
Arguments getOrganization {Db} _.
Arguments getOrganizationById {Db} _ _.
Arguments deleteOrganizationById {Db} _ _.
Arguments createOrganization {Db} _ _.
Arguments organizationController {Db} _ _ _ _ _.

(* ------------------------------------------------------------------ *)
(** ** Reference behaviour of the library calls

    The theorems below hold for every [JSON.stringify] and every storage
    behaviour; the definitions of this part are the instances the examples
    run on. *)

Definition dquote : ascii := ascii_of_nat 34.

(** QuoteJSONString on a string held as UTF-8 bytes. *)
Definition hex_digit (n : nat) : ascii :=
  nth n (list_ascii_of_string "0123456789abcdef") "0"%char.

Definition quote_char (c : ascii) : string :=
  let n := nat_of_ascii c in
  if (n =? 34)%nat then String "\"%char (String dquote EmptyString)
  else if (n =? 92)%nat then "\\"
  else if (n =? 8)%nat then "\b"
  else if (n =? 9)%nat then "\t"
  else if (n =? 10)%nat then "\n"
  else if (n =? 12)%nat then "\f"
  else if (n =? 13)%nat then "\r"
  else if (n <? 32)%nat then
    ("\u00" ++ String (hex_digit (n / 16)) (String (hex_digit (n mod 16)) EmptyString))%string
  else String c EmptyString.

Definition quote (s : string) : string :=
  String dquote
    (String.concat EmptyString (map quote_char (list_ascii_of_string s))
     ++ String dquote EmptyString)%string.

(** Number::toString on an integer below 10^21 in magnitude. *)
Definition decimal (n : Z) : string := NilZero.string_of_int (Z.to_int n).

(** SerializeJSONProperty: [None] stands for [undefined] (no text). *)
Fixpoint serialize (v : JValue) : option string :=
  match v with
  | JUndefined => None
  | JNull => Some "null"
  | JBool true => Some "true"
  | JBool false => Some "false"
  | JNum n => Some (decimal n)
  | JStr s => Some (quote s)
  | JArr items =>
      Some ("[" ++ String.concat ","
                     (map (fun x => match serialize x with
                                    | Some t => t
                                    | None => "null"
                                    end) items)
                ++ "]")%string
  | JObj fields =>
      Some ("{" ++ String.concat ","
                     (flat_map (fun kv => match serialize (snd kv) with
                                          | Some t =>
                                              [(quote (fst kv) ++ ":" ++ t)%string]
                                          | None => []
                                          end) fields)
                ++ "}")%string
  end.

Definition JSON_stringify_ref (v : JValue) : JValue :=
  match serialize v with
  | Some t => JStr t
  | None => JUndefined
  end.

(** Services that always return. *)
Definition services_return : ServiceOp -> string -> JValue -> option Exn :=
  fun _ _ _ => None.

(** A socket that accepts every write, and one whose [send] throws. *)
Definition open_socket (name : string) : WebSocket :=
  mkWebSocket name (fun _ => None).

Definition closed_socket (name : string) : WebSocket :=
  mkWebSocket name (fun _ => Some (Error "WebSocket is not open")).

(** The collection as pairs of [_id] (24 hexadecimal digits) and document. *)
Definition Collection : Type := list (string * JValue).

Definition is_hex (c : ascii) : bool :=
  let n := nat_of_ascii c in
  ((48 <=? n) && (n <=? 57) || (97 <=? n) && (n <=? 102)
   || (65 <=? n) && (n <=? 70))%nat.

Definition is_ObjectId_hex (s : string) : bool :=
  (String.length s =? 24)%nat && forallb is_hex (list_ascii_of_string s).

Definition CastError (id : string) : Exn :=
  Error ("Cast to ObjectId failed for value " ++ quote id)%string.

(** Mongoose's [findById]: the document, [null] when no document has the
    id, a CastError when the id is no ObjectId. *)
Definition mongoose_findById (id : string) : M Collection JValue :=
  fun c =>
    if is_ObjectId_hex id then
      match find (fun e => fst e =? id) c with
      | Some e => (Normal (snd e), c)
      | None => (Normal JNull, c)
      end
    else (Abrupt (CastError id), c).

Fixpoint remove_first (id : string) (c : Collection) : Collection :=
  match c with
  | [] => []
  | e :: rest => if fst e =? id then rest else e :: remove_first id rest
  end.

(** Mongoose's [deleteOne({_id: id})]: removes the first match and resolves
    to the driver's result object, with [deletedCount] 0 when nothing
    matched; a CastError when the id is no ObjectId. *)
Definition mongoose_deleteOne (id : string) : M Collection JValue :=
  fun c =>
    if is_ObjectId_hex id then
      let n := if existsb (fun e => fst e =? id) c then 1%Z else 0%Z in
      (Normal (JObj [("acknowledged", JBool true); ("deletedCount", JNum n)]),
       remove_first id c)
    else (Abrupt (CastError id), c).

Definition mongoose_find : M Collection JValue :=
  fun c => (Normal (JArr (map snd c)), c).

(** Mongoose's [create]: stores the document under an id of its own
    making and resolves to the document. *)
Definition fresh_id (c : Collection) : string :=
  let d := decimal (Z.of_nat (length c)) in
  (string_of_list_ascii (repeat "0"%char (24 - String.length d)) ++ d)%string.

Definition mongoose_create (org : JValue) : M Collection JValue :=
  fun c => (Normal org, c ++ [(fresh_id c, org)]).

(** The inbound envelope and the result envelope of the user-create
    scenario. *)
Definition ann : JValue := JObj [("name", JStr "Ann")].

Definition create_ann : Envelope :=
  mkEnvelope "user" "42" (JObj [("action", JStr "create"); ("payload", ann)]).

Definition user_updated_ann : JValue :=
  JObj [("type", JStr "user");
        ("id", JStr "42");
        ("data", JObj [("action", JStr "user_updated"); ("payload", ann)])].

Definition info_hi : JValue :=
  JObj [("type", JStr "info"); ("message", JStr "hi")].

(** Projections of a trace. *)
Definition writes (t : list Event) : list (WebSocket * JValue) :=
  flat_map (fun e => match e with Send ws p => [(ws, p)] | _ => [] end) t.

Definition serializations (t : list Event) : list JValue :=
  flat_map (fun e => match e with Stringify v => [v] | _ => [] end) t.

(** The events of one round of the [forEach] callback of [broadcast]. *)
Definition round (message bytes : JValue) (entry : string * WebSocket)
  : list Event :=
  [Stringify message; Send (snd entry) bytes].

Definition accepts (bytes : JValue) (entry : string * WebSocket) : Prop :=
  send_outcome (snd entry) bytes = None.

(** The controller over the reference storage. *)
Definition reference_controller : Request -> M (Context Collection) JValue :=
  organizationController
    mongoose_find mongoose_findById mongoose_deleteOne mongoose_create.

Definition acme : JValue :=
  JObj [("_id", JStr "65f1c0ffee65f1c0ffee0001"); ("name", JStr "Acme")].

(** A request context on a collection holding [acme], with the status a
    response starts from. *)
Definition fresh_context : Context Collection :=
  mkContext [("65f1c0ffee65f1c0ffee0001", acme)] 200.

(** The body the specification gives for a not-found condition. *)
Definition not_found_body : JValue := JObj [("message", JStr "Id not found")].

(** Registries the examples run on, each with an empty trace. *)
Definition two_open : World :=
  mkWorld [("a", open_socket "A"); ("b", open_socket "B")] [].

Definition closed_then_open : World :=
  mkWorld [("a", closed_socket "A"); ("b", open_socket "B")] [].

Definition open_closed_open : World :=
  mkWorld [("a", open_socket "A"); ("b", closed_socket "B");
           ("c", open_socket "C")] [].

Definition closed_then_sender : World :=
  mkWorld [("a", closed_socket "A"); ("s", open_socket "S")] [].

(** *** The statements of the specification that the code does not meet,
    as properties of one call *)

(** "broadcast serializes once and writes the serialized envelope to every
    registered connection", for a call that starts from world [w]. *)
Definition serializes_once_writes_all
    (JSON_stringify : JValue -> JValue) (message : JValue) (w : World) : Prop :=
  let w' := snd (broadcast JSON_stringify message w) in
  serializations (trace w') = serializations (trace w) ++ [message]
  /\ writes (trace w')
     = writes (trace w)
       ++ map (fun entry => (snd entry, JSON_stringify message)) (connections w).

(** "a write that fails on one connection neither stops the writes to the
    other connections nor escapes to the caller". *)
Definition isolates_send_failures
    (JSON_stringify : JValue -> JValue) (message : JValue) (w : World) : Prop :=
  let r := broadcast JSON_stringify message w in
  fst r = Normal tt
  /\ forall entry, In entry (connections w) ->
       accepts (JSON_stringify message) entry ->
       In (Send (snd entry) (JSON_stringify message)) (trace (snd r)).

(** "the create envelope makes the handler call the user-create operation
    and then write the result envelope to every registered connection". *)
Definition create_reaches_every_connection
    (JSON_stringify : JValue -> JValue)
    (service_outcome : ServiceOp -> string -> JValue -> option Exn)
    (sender : WebSocket) (w : World) : Prop :=
  let w' := snd (message JSON_stringify service_outcome sender create_ann w) in
  In (ServiceCall userService_createUser "42" ann) (trace w')
  /\ forall entry, In entry (connections w) ->
       In (Send (snd entry) (JSON_stringify user_updated_ann)) (trace w').

(* ------------------------------------------------------------------ *)
(** ** Further definitions: sequences of calls, the other callers *)

(** The value of [o.k] on a value that is neither [null] nor [undefined]. *)
Definition prop_of (o : JValue) (k : string) : JValue :=
  match o with
  | JObj fields => own_field k fields
  | _ => JUndefined
  end.

Definition nullish (v : JValue) : bool :=
  match v with
  | JUndefined | JNull => true
  | _ => false
  end.

(** A call on the registry from outside the manager, and the world a
    sequence of such calls ends in. *)
Inductive RegistryCall : Type :=
| Register (id : string) (ws : WebSocket)
| Deregister (id : string).

Definition registry_call (c : RegistryCall) : M World unit :=
  match c with
  | Register id ws => addConnection id ws
  | Deregister id => removeConnection id
  end.

Fixpoint after_calls (calls : list RegistryCall) (w : World) : World :=
  match calls with
  | [] => w
  | c :: rest => after_calls rest (snd (registry_call c w))
  end.

(** The module starts from [new Map()] and has done nothing yet. *)
Definition initial_world : World := mkWorld [] [].

(** A statement that leaves the registry as it found it, however it
    completes. *)
Definition keeps_registry {A} (c : M World A) : Prop :=
  forall w, connections (snd (c w)) = connections w.

(** The service a handler calls for an action, if any. *)
Definition user_service_for (action : JValue) : option ServiceOp :=
  if strict_eq_str action "update" then Some userService_updateUser
  else if strict_eq_str action "create" then Some userService_createUser
  else None.

Definition product_service_for (action : JValue) : option ServiceOp :=
  if strict_eq_str action "update" then Some productService_updateProduct
  else if strict_eq_str action "create" then Some productService_createProduct
  else None.

(** The envelopes the two handlers broadcast. *)
Definition updated_envelope (type action id : string) (payload : JValue)
  : JValue :=
  JObj [("type", JStr type);
        ("id", JStr id);
        ("data", JObj [("action", JStr action); ("payload", payload)])].

(** The message client.js sends when its socket opens. *)
Definition subscribe_12345 : Envelope :=
  mkEnvelope "user" "12345" (JObj [("action", JStr "subscribe")]).

(** The welcome object [open] sends. *)
Definition connection_established : JValue :=
  JObj [("type", JStr "info"); ("message", JStr "Connection established")].

(** What the [/ws] route of websocket.js is told by the framework, and the
    world after a sequence of such events: each handler runs on the world
    the one before left, whether that one returned or threw. *)
Inductive RouteEvent : Type :=
| Opened (ws : WebSocket)
| Received (ws : WebSocket) (envelope : Envelope)
| Closed (ws : WebSocket).

Definition route
    (JSON_stringify : JValue -> JValue)
    (service_outcome : ServiceOp -> string -> JValue -> option Exn)
    (ev : RouteEvent) : M World unit :=
  match ev with
  | Opened ws => open ws
  | Received ws envelope => message JSON_stringify service_outcome ws envelope
  | Closed ws => close ws
  end.

Fixpoint after_events
    (JSON_stringify : JValue -> JValue)
    (service_outcome : ServiceOp -> string -> JValue -> option Exn)
    (events : list RouteEvent) (w : World) : World :=
  match events with
  | [] => w
  | ev :: rest =>
      after_events JSON_stringify service_outcome rest
        (snd (route JSON_stringify service_outcome ev w))
  end.

Definition welcomes (events : list RouteEvent) : list (WebSocket * JValue) :=
  flat_map (fun ev => match ev with
                      | Opened ws => [(ws, connection_established)]
                      | _ => []
                      end) events.

(** Services whose every call throws. *)
Definition services_fail : ServiceOp -> string -> JValue -> option Exn :=
  fun _ _ _ => Some (Error "storage unavailable").

(** ToString, as a template literal applies it. *)
Fixpoint to_string (v : JValue) : string :=
  match v with
  | JUndefined => "undefined"
  | JNull => "null"
  | JBool true => "true"
  | JBool false => "false"
  | JNum n => decimal n
  | JStr s => s
  | JArr items =>
      String.concat ","
        (map (fun x => match x with
                       | JUndefined | JNull => EmptyString
                       | _ => to_string x
                       end) items)
  | JObj _ => "[object Object]"
  end.

(** [await] on a promise that resolves to a value or rejects. *)
Definition await {S A} (outcome : Completion A) : M S A :=
  fun s => (outcome, s).

(** The TypeError of [v.forEach(...)] on a value that is no array (the
    wording of the message is the engine's). *)
Definition forEach_type_error (v : JValue) : Exn :=
  match v with
  | JUndefined =>
      TypeError "Cannot read properties of undefined (reading 'forEach')"
  | JNull => TypeError "Cannot read properties of null (reading 'forEach')"
  | _ => TypeError "forEach is not a function"
  end.

Fixpoint each {S} (f : JValue -> M S unit) (items : list JValue) : M S unit :=
  match items with
  | [] => ret tt
  | x :: rest => f x ;; each f rest
  end.

(** [v.forEach(f)] on a value of any kind. *)
Definition array_forEach {S} (v : JValue) (f : JValue -> M S unit) : M S unit :=
  match v with
  | JArr items => each f items
  | _ => throw (forEach_type_error v)
  end.

(** *** The console, for the code that runs outside the WebSocket layer *)

Inductive ConsoleLine : Type :=
| ConsoleLog (text : string)                       (* console.log(text) *)
| ConsoleError (label : string) (error : Exn).     (* console.error(label, error) *)

Definition Console : Type := list ConsoleLine.

Definition log_text (text : string) : M Console unit :=
  fun c => (Normal tt, c ++ [ConsoleLog text]).

Definition console_error (label : string) (error : Exn) : M Console unit :=
  fun c => (Normal tt, c ++ [ConsoleError label error]).

(** *** config/database.ts *)

Section Database.

(** [mongoose.connect(uri)], awaited: library code. *)
Variable mongoose_connect : Completion JValue.

Definition connectToDatabase : M Console unit :=
  try_catch
    (client <- await mongoose_connect ;;
     log_text "====== MongoDB connected ======")
    (fun error => console_error "MongoDB connection error:" error).

End Database.

(** *** cron.ts: the [run] method of the heartbeat job *)

Section CronJob.

Variable JSON_stringify : JValue -> JValue.

(** The three service calls, awaited; the services are not part of the
    repository. *)
Variable userService_checkForUpdates : Completion JValue.
Variable productService_checkForUpdates : Completion JValue.
Variable userService_getPendingNotifications : Completion JValue.

Definition run : M Console unit :=
  log_text "Heartbeat" ;;
  try_catch
    (usersWithUpdates <- await userService_checkForUpdates ;;
     array_forEach usersWithUpdates
       (fun user =>
          log_text ("User update: " ++ to_string (JSON_stringify user))%string))
    (fun error => console_error "Error checking for user updates:" error) ;;
  try_catch
    (productsWithUpdates <- await productService_checkForUpdates ;;
     array_forEach productsWithUpdates
       (fun product =>
          log_text ("Product update: " ++ to_string (JSON_stringify product))%string))
    (fun error => console_error "Error checking for product updates:" error) ;;
  try_catch
    (notifications <- await userService_getPendingNotifications ;;
     array_forEach notifications
       (fun notification =>
          log_text ("Sending notification: "
                    ++ to_string (JSON_stringify notification))%string))
    (fun error => console_error "Error sending notifications:" error).

End CronJob.

(** The lines one block of [run] prints for the outcome of its service
    call. *)
Definition block_lines (JSON_stringify : JValue -> JValue)
    (line_prefix error_label : string) (outcome : Completion JValue)
  : list ConsoleLine :=
  match outcome with
  | Abrupt e => [ConsoleError error_label e]
  | Normal (JArr items) =>
      map (fun x => ConsoleLog (line_prefix ++ to_string (JSON_stringify x))%string)
          items
  | Normal v => [ConsoleError error_label (forEach_type_error v)]
  end.

(** *** websocket.js of the variant built on the ws library *)

Section WsLibraryVariant.

Variable JSON_stringify : JValue -> JValue.

(** [JSON.parse]: the value, or the SyntaxError it throws. *)
Variable JSON_parse : string -> Completion JValue.



(** The listener of the socket's 'close' event. *)
Definition on_close (id : string) : M World unit :=
  removeConnection id.

End WsLibraryVariant.

(** *** users.controller.js: POST /users/create *)

Section UsersController.

Variable S : Type.

(** [services.createUser(body)], awaited. *)
Variable services_createUser : JValue -> Completion JValue.

Definition users_create (body : JValue) : M S JValue :=
  user <- await (services_createUser body) ;;
  _id <- get_prop user "_id" ;;
  name <- get_prop user "name" ;;
  email <- get_prop user "email" ;;
  ret (JObj [("id", _id); ("name", name); ("email", email)]).

End UsersController.

Arguments users_create {S} _ _.


(** A stored user with a field the response must not carry. *)
Definition stored_ann : JValue :=
  JObj [("_id", JStr "u1"); ("name", JStr "Ann");
        ("email", JStr "ann@example.org"); ("passwordHash", JStr "x")].

Example serialize_info_hi :
  JSON_stringify_ref info_hi
  = JStr (String.concat (String dquote EmptyString)
            ["{"; "type"; ":"; "info"; ","; "message"; ":"; "hi"; "}"]).
Proof. reflexivity. Qed.

(* ------------------------------------------------------------------ *)
(** ** Facts about the [Map] *)

Lemma map_get_set_same {V} (k : string) (v : V) (m : JsMap V) :
  map_get k (map_set k v m) = Some v.
Proof.
  induction m as [|[k' v'] rest IH]; simpl.
  - now rewrite String.eqb_refl.
  - destruct (k' =? k) eqn:E; simpl.
    + now rewrite String.eqb_refl.
    + now rewrite E.
Qed.

Lemma map_get_set_other {V} (k j : string) (v : V) (m : JsMap V) :
  j <> k -> map_get j (map_set k v m) = map_get j m.
Proof.
  intros Hne. induction m as [|[k' v'] rest IH]; simpl.
  - destruct (String.eqb_spec k j); [congruence | reflexivity].
  - destruct (String.eqb_spec k' k) as [->|Hk]; simpl.
    + destruct (String.eqb_spec k j); [congruence | reflexivity].
    + destruct (k' =? j); [reflexivity | exact IH].
Qed.

Lemma map_set_keys_in {V} (k j : string) (v : V) (m : JsMap V) :
  In j (map fst (map_set k v m)) -> j = k \/ In j (map fst m).
Proof.
  induction m as [|[k' v'] rest IH]; simpl.
  - intros [<-|[]]. now left.
  - destruct (String.eqb_spec k' k) as [->|Hk]; simpl.
    + intros [<-|H]; [now left | now right; right].
    + intros [<-|H]; [now right; left |].
      destruct (IH H); [now left | now right; right].
Qed.

Lemma map_set_wf {V} (k : string) (v : V) (m : JsMap V) :
  map_wf m -> map_wf (map_set k v m).
Proof.
  unfold map_wf. induction m as [|[k' v'] rest IH]; simpl; intros Hwf.
  - constructor; [intros [] | constructor].
  - inversion Hwf as [|? ? Hnotin Hrest]; subst.
    destruct (String.eqb_spec k' k) as [->|Hk]; simpl.
    + now constructor.
    + constructor; [| now apply IH].
      intros Hin. destruct (map_set_keys_in _ _ _ _ Hin); congruence.
Qed.

Lemma map_delete_absent {V} (k : string) (m : JsMap V) :
  map_get k m = None -> map_delete k m = m.
Proof.
  unfold map_delete. induction m as [|[k' v'] rest IH]; simpl; [reflexivity|].
  destruct (k' =? k); simpl; [discriminate|].
  intros H. now rewrite IH.
Qed.

Lemma map_get_delete_same {V} (k : string) (m : JsMap V) :
  map_get k (map_delete k m) = None.
Proof.
  unfold map_delete. induction m as [|[k' v'] rest IH]; simpl; [reflexivity|].
  destruct (k' =? k) eqn:E; simpl; [exact IH|].
  now rewrite E.
Qed.

Lemma map_delete_twice {V} (k : string) (m : JsMap V) :
  map_delete k (map_delete k m) = map_delete k m.
Proof. apply map_delete_absent, map_get_delete_same. Qed.

Lemma map_delete_wf {V} (k : string) (m : JsMap V) :
  map_wf m -> map_wf (map_delete k m).
Proof.
  unfold map_wf, map_delete. induction m as [|[k' v'] rest IH]; simpl; intros Hwf.
  - constructor.
  - inversion Hwf as [|? ? Hnotin Hrest]; subst.
    destruct (k' =? k); simpl; [now apply IH|].
    constructor; [| now apply IH].
    intros Hin. apply Hnotin.
    apply in_map_iff in Hin as [e [He Hin]].
    apply filter_In in Hin as [Hin _].
    apply in_map_iff. now exists e.
Qed.

(* ------------------------------------------------------------------ *)
(** ** The connection registry *)

(** Registering and deregistering keep the keys of the registry distinct,
    as they are in the empty [Map] the module starts from. *)
Lemma addConnection_keeps_wf (id : string) (ws : WebSocket) (w : World) :
  map_wf (connections w) ->
  map_wf (connections (snd (addConnection id ws w))).
Proof. apply map_set_wf. Qed.

Lemma removeConnection_keeps_wf (id : string) (w : World) :
  map_wf (connections w) ->
  map_wf (connections (snd (removeConnection id w))).
Proof. apply map_delete_wf. Qed.

(** Either every entry accepts the write, or there is a first one whose
    [send] throws. *)
Lemma first_throw_or_none (bytes : JValue) (entries : JsMap WebSocket) :
  Forall (accepts bytes) entries
  \/ exists pre k ws e post,
       entries = pre ++ (k, ws) :: post
       /\ Forall (accepts bytes) pre
       /\ send_outcome ws bytes = Some e.
Proof.
  induction entries as [|[k ws] rest IH].
  - left. constructor.
  - destruct (send_outcome ws bytes) as [e|] eqn:Hout.
    + right. exists [], k, ws, e, rest. repeat split; [constructor | exact Hout].
    + destruct IH as [Hall | (pre & k' & ws' & e & post & -> & Hpre & Hthrow)].
      * left. constructor; [exact Hout | exact Hall].
      * right. exists ((k, ws) :: pre), k', ws', e, post.
        repeat split; [constructor; [exact Hout | exact Hpre] | exact Hthrow].
Qed.

(** C4. Registering [c1] under [id] and then [c2] under the same [id]
    leaves [id] mapped to [c2]: the lookup that follows returns [c2], and
    neither registration throws. *)
Theorem register_twice_last_wins (id : string) (c1 c2 : WebSocket) (w : World) :
  fst ((addConnection id c1 ;; addConnection id c2 ;; getConnection id) w)
  = Normal (Some c2).
Proof.
  unfold bind, addConnection, getConnection; simpl.
  now rewrite map_get_set_same.
Qed.

(** C5. Deregistering is a no-op on an absent id and is idempotent:
    [removeConnection] never throws, it returns the world unchanged when
    the id is not registered, and calling it twice in a row ends in the
    state one call ends in. *)
Theorem removeConnection_idempotent (id : string) (w : World) :
  fst (removeConnection id w) = Normal tt
  /\ (map_get id (connections w) = None -> removeConnection id w = (Normal tt, w))
  /\ (removeConnection id ;; removeConnection id) w = removeConnection id w.
Proof.
  destruct w as [conns tr]. unfold bind, removeConnection; simpl.
  split; [reflexivity | split].
  - intros Habsent. now rewrite map_delete_absent.
  - now rewrite map_delete_twice.
Qed.

Lemma removeConnection_idempotent_witness :
  removeConnection "ghost" (mkWorld [("a", open_socket "A")] [])
  = (Normal tt, mkWorld [("a", open_socket "A")] []).
Proof.
  refine (proj1 (proj2 (removeConnection_idempotent "ghost" _)) _).
  reflexivity.
Defined.

(* ------------------------------------------------------------------ *)
(** ** Facts about traces *)

Lemma writes_app (t u : list Event) : writes (t ++ u) = writes t ++ writes u.
Proof. unfold writes. apply flat_map_app. Qed.

Lemma serializations_app (t u : list Event) :
  serializations (t ++ u) = serializations t ++ serializations u.
Proof. unfold serializations. apply flat_map_app. Qed.

Lemma writes_rounds (message bytes : JValue) (entries : JsMap WebSocket) :
  writes (flat_map (round message bytes) entries)
  = map (fun entry => (snd entry, bytes)) entries.
Proof.
  induction entries as [|entry rest IH]; simpl; [reflexivity|].
  now rewrite <- IH.
Qed.

Lemma serializations_rounds (message bytes : JValue) (entries : JsMap WebSocket) :
  serializations (flat_map (round message bytes) entries)
  = map (fun _ => message) entries.
Proof.
  induction entries as [|entry rest IH]; simpl; [reflexivity|].
  now rewrite <- IH.
Qed.

Section WebSocketFacts.

Variable JSON_stringify : JValue -> JValue.
Variable service_outcome : ServiceOp -> string -> JValue -> option Exn.

(** One round of the callback [ws => ws.send(JSON.stringify(message))]. *)
Lemma callback_round (message : JValue) (ws : WebSocket)
      (conns : JsMap WebSocket) (tr : list Event) :
  (s <- stringify JSON_stringify message ;; ws_send ws s) (mkWorld conns tr)
  = (match send_outcome ws (JSON_stringify message) with
     | None => Normal tt
     | Some e => Abrupt e
     end,
     mkWorld conns (tr ++ [Stringify message; Send ws (JSON_stringify message)])).
Proof.
  unfold bind, stringify, ws_send, bind, emit, ret, throw; simpl.
  rewrite <- app_assoc; simpl.
  now destruct (send_outcome ws (JSON_stringify message)).
Qed.

Lemma forEach_all_accept (message : JValue) (entries conns : JsMap WebSocket)
      (tr : list Event) :
  Forall (accepts (JSON_stringify message)) entries ->
  forEach (fun ws => s <- stringify JSON_stringify message ;; ws_send ws s)
          entries (mkWorld conns tr)
  = (Normal tt,
     mkWorld conns
       (tr ++ flat_map (round message (JSON_stringify message)) entries)).
Proof.
  revert tr. induction entries as [|[k ws] rest IH]; intros tr Hall.
  - simpl. now rewrite app_nil_r.
  - inversion Hall as [|? ? Hws Hrest]; subst.
    cbn [forEach]. unfold bind at 1. rewrite callback_round.
    unfold accepts in Hws; simpl in Hws. rewrite Hws.
    rewrite IH by assumption.
    now rewrite <- app_assoc.
Qed.

Lemma forEach_first_throw (message : JValue) (pre post conns : JsMap WebSocket)
      (k : string) (ws : WebSocket) (e : Exn) (tr : list Event) :
  Forall (accepts (JSON_stringify message)) pre ->
  send_outcome ws (JSON_stringify message) = Some e ->
  forEach (fun ws => s <- stringify JSON_stringify message ;; ws_send ws s)
          (pre ++ (k, ws) :: post) (mkWorld conns tr)
  = (Abrupt e,
     mkWorld conns
       (tr ++ flat_map (round message (JSON_stringify message))
                       (pre ++ [(k, ws)]))).
Proof.
  revert tr. induction pre as [|[k' ws'] rest IH]; intros tr Hall Hthrow.
  - cbn [app forEach]. unfold bind at 1. rewrite callback_round, Hthrow.
    reflexivity.
  - inversion Hall as [|? ? Hws Hrest]; subst.
    cbn [app forEach]. unfold bind at 1. rewrite callback_round.
    unfold accepts in Hws; simpl in Hws. rewrite Hws.
    rewrite IH by assumption.
    now rewrite <- app_assoc.
Qed.

(** The registry is not changed by a broadcast. *)
Lemma forEach_keeps_connections (message : JValue)
      (entries conns : JsMap WebSocket) (tr : list Event) :
  connections
    (snd (forEach (fun ws => s <- stringify JSON_stringify message ;; ws_send ws s)
                  entries (mkWorld conns tr)))
  = conns.
Proof.
  revert tr. induction entries as [|[k ws] rest IH]; intros tr; [reflexivity|].
  cbn [forEach]. unfold bind at 1. rewrite callback_round.
  destruct (send_outcome ws (JSON_stringify message)); [reflexivity | apply IH].
Qed.

(** *** The dispatcher *)

(** C1. The message handler of the [/ws] route runs exactly the handler
    its [type] selects: [handleUserMessage] on [id] and [data] when the
    type is "user", [handleProductMessage] when it is "product".  For
    every other type it runs no handler: it returns normally, leaves the
    registry as it was, and the one thing it does is log the type. *)
Theorem message_dispatches_by_type
    (ws : WebSocket) (ty id : string) (data : JValue) (w : World) :
  (ty = "user" ->
     message JSON_stringify service_outcome ws (mkEnvelope ty id data) w
     = handleUserMessage JSON_stringify service_outcome id data w)
  /\ (ty = "product" ->
     message JSON_stringify service_outcome ws (mkEnvelope ty id data) w
     = handleProductMessage JSON_stringify service_outcome id data w)
  /\ (ty <> "user" -> ty <> "product" ->
     message JSON_stringify service_outcome ws (mkEnvelope ty id data) w
     = (Normal tt,
        mkWorld (connections w)
                (trace w ++ [Log [JStr "Unknown message type:"; JStr ty]]))).
Proof.
  unfold message; simpl. repeat split.
  - intros ->. reflexivity.
  - intros ->. reflexivity.
  - intros Hu Hp.
    destruct (String.eqb_spec ty "user"); [contradiction|].
    destruct (String.eqb_spec ty "product"); [contradiction|].
    reflexivity.
Qed.

(** A handler reads [data.action] first: on [null] data it throws before
    it calls a service or writes to a connection. *)
Lemma handleUserMessage_null_data (id : string) (w : World) :
  handleUserMessage JSON_stringify service_outcome id JNull w
  = (Abrupt (TypeError "Cannot read properties of null (reading 'action')"), w).
Proof. reflexivity. Qed.

(** *** Unicast *)

(** C6. [sendToConnection] on an id that is not registered writes to no
    channel, logs that no connection was found and returns normally; on a
    registered id it serializes the message and calls [send] with the
    result on the channel registered under that id, and on no other. *)
Theorem sendToConnection_by_lookup (id : string) (msg : JValue) (w : World) :
  (map_get id (connections w) = None ->
     sendToConnection JSON_stringify id msg w
     = (Normal tt,
        mkWorld (connections w)
          (trace w ++ [Log [JStr ("No connection found for id: " ++ id)%string]])))
  /\ (forall ws, map_get id (connections w) = Some ws ->
     sendToConnection JSON_stringify id msg w
     = (match send_outcome ws (JSON_stringify msg) with
        | None => Normal tt
        | Some e => Abrupt e
        end,
        mkWorld (connections w)
          (trace w ++ [Stringify msg; Send ws (JSON_stringify msg)]))).
Proof.
  destruct w as [conns tr]. unfold sendToConnection, getConnection; simpl.
  split.
  - intros Habsent. unfold bind at 1; simpl. now rewrite Habsent.
  - intros ws Hfound. unfold bind at 1; simpl. rewrite Hfound.
    apply callback_round.
Qed.

(** *** Broadcast *)

(** C2, as the code has it.  When no registered connection's [send]
    throws, [broadcast] returns normally, leaves the registry as it was and
    goes through the registered connections in insertion order; for each
    it evaluates [JSON.stringify] on the message -- once per connection,
    every time to the same text -- and calls [send] with that text.  So
    every registered connection is written exactly once, all with
    identical text. *)
Theorem broadcast_reaches_every_connection (msg : JValue) (w : World) :
  Forall (accepts (JSON_stringify msg)) (connections w) ->
  let w' := snd (broadcast JSON_stringify msg w) in
  broadcast JSON_stringify msg w
  = (Normal tt,
     mkWorld (connections w)
       (trace w ++ flat_map (round msg (JSON_stringify msg)) (connections w)))
  /\ writes (trace w')
     = writes (trace w)
       ++ map (fun entry => (snd entry, JSON_stringify msg)) (connections w)
  /\ serializations (trace w')
     = serializations (trace w) ++ map (fun _ => msg) (connections w).
Proof.
  intros Hall. destruct w as [conns tr]; simpl in *.
  unfold broadcast; simpl.
  rewrite (forEach_all_accept msg conns conns tr Hall); simpl.
  rewrite writes_app, serializations_app, writes_rounds, serializations_rounds.
  repeat split.
Qed.

(** C3, as the code has it.  When the [send] of a registered connection
    throws and those before it in insertion order accept the write,
    [broadcast] stops there: the connections before it and the throwing one
    have had their [send] called, the ones after it have not, and the
    thrown value reaches the caller of [broadcast]. *)
Theorem broadcast_stops_at_first_throw
    (msg : JValue) (w : World) (pre post : JsMap WebSocket)
    (k : string) (ws : WebSocket) (e : Exn) :
  connections w = pre ++ (k, ws) :: post ->
  Forall (accepts (JSON_stringify msg)) pre ->
  send_outcome ws (JSON_stringify msg) = Some e ->
  broadcast JSON_stringify msg w
  = (Abrupt e,
     mkWorld (connections w)
       (trace w ++ flat_map (round msg (JSON_stringify msg)) (pre ++ [(k, ws)]))).
Proof.
  intros Hconns Hpre Hthrow. destruct w as [conns tr]; simpl in *.
  unfold broadcast; simpl. rewrite Hconns at 1.
  now apply forEach_first_throw.
Qed.

(** *** The user handler *)

(** On the create envelope the handler is the user-create call followed by
    the broadcast of the result envelope, whatever the registry holds. *)
Lemma message_create_ann (sender : WebSocket) (w : World) :
  message JSON_stringify service_outcome sender create_ann w
  = (call_service service_outcome userService_createUser "42" ann ;;
     broadcast JSON_stringify user_updated_ann) w.
Proof. reflexivity. Qed.

(** C7, as the code has it.  Processing the envelope
    [{type:"user", id:"42", data:{action:"create", payload:{name:"Ann"}}}]
    calls the user-create operation with "42" and [{name:"Ann"}] and then
    calls [broadcast] on [{type:"user", id:"42", data:{action:"user_updated",
    payload:{name:"Ann"}}}], whatever the registry holds.  When the service
    call returns and no registered connection's [send] throws, the
    serialized result is written to every registered connection in
    insertion order, and so to the sender whenever the sender is
    registered: the handler does not single it out. *)
Theorem user_create_then_broadcast (sender : WebSocket) (w : World) :
  message JSON_stringify service_outcome sender create_ann w
  = (call_service service_outcome userService_createUser "42" ann ;;
     broadcast JSON_stringify user_updated_ann) w
  /\ (service_outcome userService_createUser "42" ann = None ->
      Forall (accepts (JSON_stringify user_updated_ann)) (connections w) ->
      message JSON_stringify service_outcome sender create_ann w
      = (Normal tt,
         mkWorld (connections w)
           (trace w
            ++ ServiceCall userService_createUser "42" ann
               :: flat_map
                    (round user_updated_ann (JSON_stringify user_updated_ann))
                    (connections w)))
      /\ (forall k, In (k, sender) (connections w) ->
            In (Send sender (JSON_stringify user_updated_ann))
               (trace (snd (message JSON_stringify service_outcome sender
                                    create_ann w))))).
Proof.
  split; [apply message_create_ann|].
  intros Hsvc Hall.
  assert (Hr : message JSON_stringify service_outcome sender create_ann w
               = (Normal tt,
                  mkWorld (connections w)
                    (trace w
                     ++ ServiceCall userService_createUser "42" ann
                        :: flat_map
                             (round user_updated_ann
                                    (JSON_stringify user_updated_ann))
                             (connections w)))).
  { rewrite message_create_ann.
    destruct w as [conns tr]; simpl in *.
    unfold bind at 1, call_service, bind at 1, emit; simpl.
    rewrite Hsvc; unfold ret at 1. unfold broadcast; simpl.
    rewrite (forEach_all_accept user_updated_ann conns conns _ Hall).
    now rewrite <- app_assoc. }
  split; [exact Hr|].
  intros k Hin. rewrite Hr; simpl.
  apply in_or_app; right. right.
  apply in_flat_map. exists (k, sender). split; [exact Hin|].
  simpl. now right; left.
Qed.

End WebSocketFacts.

(* ------------------------------------------------------------------ *)
(** ** The organisation service and controller *)

Section OrganisationFacts.

Variable Db : Type.
Variable OrganizationModel_find : M Db JValue.
Variable OrganizationModel_findById : string -> M Db JValue.
Variable OrganizationModel_deleteOne : string -> M Db JValue.
Variable OrganizationModel_create : JValue -> M Db JValue.

Lemma try_catch_null (call : M Db JValue) (d : Db) :
  try_catch (result <- call ;; ret result) (fun error => ret JNull) d
  = match call d with
    | (Normal result, d') => (Normal result, d')
    | (Abrupt _, d') => (Normal JNull, d')
    end.
Proof.
  unfold try_catch, bind, ret.
  now destruct (call d) as [[result|e] d'].
Qed.

(** C10. [getOrganizationById] and [deleteOrganizationById] never throw:
    whatever the storage call does with the id, the operation returns
    normally, with the value the storage call resolved to, or with [null]
    when the storage call threw. *)
Theorem service_by_id_never_throws (id : string) (d : Db) :
  (getOrganizationById OrganizationModel_findById id d
   = match OrganizationModel_findById id d with
     | (Normal result, d') => (Normal result, d')
     | (Abrupt _, d') => (Normal JNull, d')
     end)
  /\ (deleteOrganizationById OrganizationModel_deleteOne id d
      = match OrganizationModel_deleteOne id d with
        | (Normal result, d') => (Normal result, d')
        | (Abrupt _, d') => (Normal JNull, d')
        end)
  /\ (forall e,
        fst (getOrganizationById OrganizationModel_findById id d) <> Abrupt e
        /\ fst (deleteOrganizationById OrganizationModel_deleteOne id d) <> Abrupt e).
Proof.
  unfold getOrganizationById, deleteOrganizationById.
  rewrite !try_catch_null.
  split; [reflexivity | split; [reflexivity |]].
  intros e.
  destruct (OrganizationModel_findById id d) as [[r1|e1] d1];
    destruct (OrganizationModel_deleteOne id d) as [[r2|e2] d2];
    simpl; split; discriminate.
Qed.

Local Abbreviation controller :=
  (organizationController OrganizationModel_find OrganizationModel_findById
     OrganizationModel_deleteOne OrganizationModel_create).

Lemma bind_await_service {A B} (c : M Db A) (k : A -> M (Context Db) B)
      (ctx : Context Db) :
  (x <- await_service Db c ;; k x) ctx
  = match c (db ctx) with
    | (Normal a, d) => k a (mkContext d (set_status ctx))
    | (Abrupt e, d) => (Abrupt e, mkContext d (set_status ctx))
    end.
Proof.
  unfold bind, await_service.
  now destruct (c (db ctx)) as [[a|e] d].
Qed.

(** C9. GET /organizations/:id.  When the lookup of the service yields
    [null], the route sets the status to 400 and answers
    [{message: "Id not found"}]; when it yields a document (an object), the
    route answers that document and leaves the status alone. *)
Theorem get_by_id_found_or_400 (id : string) (ctx : Context Db) :
  let looked_up := getOrganizationById OrganizationModel_findById id (db ctx) in
  (fst looked_up = Normal JNull ->
     controller (GET_by_id id) ctx
     = (Normal (JObj [("message", JStr "Id not found")]),
        mkContext (snd looked_up) 400))
  /\ (forall fields, fst looked_up = Normal (JObj fields) ->
     controller (GET_by_id id) ctx
     = (Normal (JObj fields), mkContext (snd looked_up) (set_status ctx))).
Proof.
  intros looked_up. unfold organizationController.
  rewrite bind_await_service. fold looked_up.
  destruct looked_up as [r d']; simpl.
  split.
  - intros ->. reflexivity.
  - intros fields ->. reflexivity.
Qed.

(** The two answers of POST /organizations/delete: the route never throws,
    and it answers either the text "Id not found" with status 400 (when the
    service yields a falsy value, [null] included) or the confirmation
    object around the result of the storage call. *)
Lemma post_delete_answers (id : string) (ctx : Context Db) :
  let deleted := deleteOrganizationById OrganizationModel_deleteOne id (db ctx) in
  exists result, fst deleted = Normal result
  /\ controller (POST_delete id) ctx
     = if truthy result then
         (Normal (JObj [("message", JStr "Record Deleted"); ("data", result)]),
          mkContext (snd deleted) (set_status ctx))
       else
         (Normal (JStr "Id not found"), mkContext (snd deleted) 400).
Proof.
  intros deleted.
  assert (Hdel := try_catch_null (OrganizationModel_deleteOne id) (db ctx)).
  fold (deleteOrganizationById OrganizationModel_deleteOne id) in Hdel.
  fold deleted in Hdel.
  unfold organizationController.
  rewrite bind_await_service. fold deleted.
  destruct deleted as [r d']; simpl.
  destruct r as [result|e].
  - exists result. split; [reflexivity|].
    now destruct (truthy result).
  - destruct (OrganizationModel_deleteOne id (db ctx)) as [[r2|e2] d2];
      discriminate.
Qed.

(** Whatever the storage call does and whatever the id, POST
    /organizations/delete does not answer the structured body
    [{message: "Id not found"}] that GET /organizations/:id answers. *)
Lemma post_delete_never_structured_not_found (id : string) (ctx : Context Db) :
  fst (controller (POST_delete id) ctx) <> Normal not_found_body.
Proof.
  destruct (post_delete_answers id ctx) as [result [_ Heq]].
  rewrite Heq. destruct (truthy result); simpl; discriminate.
Qed.

End OrganisationFacts.

(* ------------------------------------------------------------------ *)
(** ** The statements at concrete inputs *)

Lemma message_dispatches_by_type_witness :
  message JSON_stringify_ref services_return (open_socket "S")
          (mkEnvelope "order" "7" JNull) two_open
  = (Normal tt,
     mkWorld (connections two_open)
             [Log [JStr "Unknown message type:"; JStr "order"]]).
Proof.
  refine (proj2 (proj2 (message_dispatches_by_type
                          JSON_stringify_ref services_return
                          (open_socket "S") "order" "7" JNull two_open)) _ _);
    discriminate.
Defined.

Lemma sendToConnection_by_lookup_witness :
  map_get "ghost" (connections two_open) = None
  /\ sendToConnection JSON_stringify_ref "ghost" info_hi two_open
     = (Normal tt,
        mkWorld (connections two_open)
                [Log [JStr "No connection found for id: ghost"]]).
Proof.
  split; [reflexivity|].
  refine (proj1 (sendToConnection_by_lookup
                   JSON_stringify_ref "ghost" info_hi two_open) _).
  reflexivity.
Defined.

Lemma broadcast_reaches_every_connection_witness :
  Forall (accepts (JSON_stringify_ref info_hi)) (connections two_open)
  /\ writes (trace (snd (broadcast JSON_stringify_ref info_hi two_open)))
     = [(open_socket "A", JSON_stringify_ref info_hi);
        (open_socket "B", JSON_stringify_ref info_hi)].
Proof.
  assert (H : Forall (accepts (JSON_stringify_ref info_hi)) (connections two_open))
    by (repeat constructor).
  split; [exact H|].
  exact (proj1 (proj2 (broadcast_reaches_every_connection
                         JSON_stringify_ref info_hi two_open H))).
Defined.

(** C2, as the specification states it, fails.  With A, B and C registered
    in this order and the [send] of B throwing, [broadcast] evaluates
    [JSON.stringify] twice, not once, and C is not written. *)
Lemma broadcast_not_once_not_all :
  serializations
    (trace (snd (broadcast JSON_stringify_ref info_hi open_closed_open)))
  = [info_hi; info_hi]
  /\ map (fun p => ws_name (fst p))
         (writes (trace (snd (broadcast JSON_stringify_ref info_hi
                                        open_closed_open))))
     = ["A"; "B"]
  /\ ~ serializes_once_writes_all JSON_stringify_ref info_hi open_closed_open.
Proof.
  split; [reflexivity | split; [reflexivity |]].
  intros [Honce _]. vm_compute in Honce. discriminate Honce.
Qed.

Lemma broadcast_stops_at_first_throw_witness :
  fst (broadcast JSON_stringify_ref info_hi open_closed_open)
  = Abrupt (Error "WebSocket is not open")
  /\ map (fun p => ws_name (fst p))
         (writes (trace (snd (broadcast JSON_stringify_ref info_hi
                                        open_closed_open))))
     = ["A"; "B"].
Proof.
  rewrite (broadcast_stops_at_first_throw
             JSON_stringify_ref info_hi open_closed_open
             [("a", open_socket "A")] [("c", open_socket "C")]
             "b" (closed_socket "B") (Error "WebSocket is not open") eq_refl).
  - split; reflexivity.
  - repeat constructor.
  - reflexivity.
Defined.

(** C3, as the specification states it, fails.  With A and B registered in
    this order and the [send] of A throwing, the exception leaves
    [broadcast] and B, whose [send] would have returned, is never
    written. *)
Lemma broadcast_does_not_isolate_failures :
  fst (broadcast JSON_stringify_ref info_hi closed_then_open)
  = Abrupt (Error "WebSocket is not open")
  /\ map (fun p => ws_name (fst p))
         (writes (trace (snd (broadcast JSON_stringify_ref info_hi
                                        closed_then_open))))
     = ["A"]
  /\ ~ isolates_send_failures JSON_stringify_ref info_hi closed_then_open.
Proof.
  split; [reflexivity | split; [reflexivity |]].
  intros [Hnormal _]. vm_compute in Hnormal. discriminate Hnormal.
Qed.

Lemma user_create_then_broadcast_witness :
  Forall (accepts (JSON_stringify_ref user_updated_ann)) (connections two_open)
  /\ In (Send (open_socket "B") (JSON_stringify_ref user_updated_ann))
        (trace (snd (message JSON_stringify_ref services_return
                             (open_socket "B") create_ann two_open))).
Proof.
  assert (H : Forall (accepts (JSON_stringify_ref user_updated_ann))
                     (connections two_open)) by (repeat constructor).
  split; [exact H|].
  refine (proj2 (proj2 (user_create_then_broadcast
                          JSON_stringify_ref services_return (open_socket "B")
                          two_open) eq_refl H) "b" _).
  simpl. right; left; reflexivity.
Defined.

(** C7, as the specification states it, fails.  The sender S is registered
    after A, whose [send] throws: the user-create operation is called, the
    broadcast stops at A, and S, the sender, is not written. *)
Lemma create_does_not_reach_the_sender :
  map (fun p => ws_name (fst p))
      (writes (trace (snd (message JSON_stringify_ref services_return
                                   (open_socket "S") create_ann
                                   closed_then_sender))))
  = ["A"]
  /\ ~ create_reaches_every_connection JSON_stringify_ref services_return
         (open_socket "S") closed_then_sender.
Proof.
  split; [reflexivity|].
  intros [_ Hall].
  specialize (Hall ("s", open_socket "S") (or_intror (or_introl eq_refl))).
  vm_compute in Hall.
  destruct Hall as [H|[H|[H|[]]]]; discriminate H.
Qed.

Lemma get_by_id_found_or_400_witness :
  reference_controller (GET_by_id "65f1c0ffee65f1c0ffee0002") fresh_context
  = (Normal (JObj [("message", JStr "Id not found")]),
     mkContext (db fresh_context) 400)
  /\ reference_controller (GET_by_id "65f1c0ffee65f1c0ffee0001") fresh_context
     = (Normal acme, fresh_context).
Proof.
  split.
  - refine (proj1 (get_by_id_found_or_400
                     Collection mongoose_find mongoose_findById
                     mongoose_deleteOne mongoose_create
                     "65f1c0ffee65f1c0ffee0002" fresh_context) _).
    reflexivity.
  - refine (proj2 (get_by_id_found_or_400
                     Collection mongoose_find mongoose_findById
                     mongoose_deleteOne mongoose_create
                     "65f1c0ffee65f1c0ffee0001" fresh_context) _ _).
    reflexivity.
Defined.

(** C8 at two ids that identify no stored document.  For an id that is an
    ObjectId, the storage call resolves to its result object, which is
    truthy: the route leaves the status at 200 and confirms a deletion that
    did not happen.  For an id that is no ObjectId, the storage call
    throws, the service yields [null], and the route answers status 400
    with the bare text, not with [{message: "Id not found"}]. *)
Theorem post_delete_absent_id :
  reference_controller (POST_delete "65f1c0ffee65f1c0ffee0002") fresh_context
  = (Normal (JObj [("message", JStr "Record Deleted");
                   ("data", JObj [("acknowledged", JBool true);
                                  ("deletedCount", JNum 0)])]),
     fresh_context)
  /\ reference_controller (POST_delete "nope") fresh_context
     = (Normal (JStr "Id not found"), mkContext (db fresh_context) 400).
Proof. split; reflexivity. Qed.

(** An id that is no ObjectId makes the storage calls throw; the service
    operations turn that into [null]. *)
Example service_null_on_uncastable_id :
  getOrganizationById mongoose_findById "nope" (db fresh_context)
  = (Normal JNull, db fresh_context)
  /\ deleteOrganizationById mongoose_deleteOne "nope" (db fresh_context)
     = (Normal JNull, db fresh_context).
Proof. split; reflexivity. Qed.

(* ------------------------------------------------------------------ *)
(** ** More about the registry *)

Lemma map_get_delete_other {V} (k j : string) (m : JsMap V) :
  j <> k -> map_get j (map_delete k m) = map_get j m.
Proof.
  intros Hne. unfold map_delete.
  induction m as [|[k' v'] rest IH]; simpl; [reflexivity|].
  destruct (String.eqb_spec k' k) as [->|Hk]; simpl.
  - destruct (String.eqb_spec k j); [congruence | exact IH].
  - destruct (k' =? j); [reflexivity | exact IH].
Qed.

Lemma map_set_absent {V} (k : string) (v : V) (m : JsMap V) :
  map_get k m = None -> map_set k v m = m ++ [(k, v)].
Proof.
  induction m as [|[k' v'] rest IH]; simpl; [reflexivity|].
  destruct (k' =? k); [discriminate|].
  intros H. now rewrite IH.
Qed.

Lemma map_set_present_keys {V} (k : string) (v : V) (m : JsMap V) :
  map_get k m <> None -> map fst (map_set k v m) = map fst m.
Proof.
  induction m as [|[k' v'] rest IH]; simpl; [congruence|].
  destruct (String.eqb_spec k' k) as [->|Hk]; simpl; [reflexivity|].
  intros H. now rewrite IH.
Qed.

Lemma map_delete_set_absent {V} (k : string) (v : V) (m : JsMap V) :
  map_get k m = None -> map_delete k (map_set k v m) = m.
Proof.
  intros Habsent. rewrite (map_set_absent k v m Habsent).
  unfold map_delete. rewrite filter_app; simpl.
  rewrite String.eqb_refl; simpl. rewrite app_nil_r.
  now apply map_delete_absent.
Qed.

Lemma map_get_in_wf {V} (k : string) (v : V) (m : JsMap V) :
  map_wf m -> In (k, v) m -> map_get k m = Some v.
Proof.
  unfold map_wf. induction m as [|[k' v'] rest IH]; simpl; [intros _ []|].
  intros Hwf Hin. inversion Hwf as [|? ? Hnotin Hrest]; subst.
  destruct Hin as [Heq|Hin].
  - inversion Heq; subst. now rewrite String.eqb_refl.
  - destruct (String.eqb_spec k' k) as [->|Hk]; [| now apply IH].
    exfalso. apply Hnotin. apply in_map_iff. now exists (k, v).
Qed.

(** X1. Registering a connection under one id leaves the lookup of every
    other id as it was. *)
Theorem addConnection_frames_other_ids
    (id other : string) (ws : WebSocket) (w : World) :
  other <> id ->
  fst ((addConnection id ws ;; getConnection other) w)
  = fst (getConnection other w).
Proof.
  intros Hne. unfold bind, addConnection, getConnection; simpl.
  now rewrite map_get_set_other.
Qed.

Lemma addConnection_frames_other_ids_witness :
  "b" <> "c"
  /\ fst ((addConnection "c" (open_socket "C") ;; getConnection "b") two_open)
     = Normal (Some (open_socket "B")).
Proof.
  assert (Hne : "b" <> "c") by discriminate.
  split; [exact Hne|].
  exact (addConnection_frames_other_ids "c" "b" (open_socket "C") two_open Hne).
Defined.

(** X2. Registering under an id and then deregistering that id leaves the
    id unregistered, whatever channel it held before; when the id was not
    registered before, the registry is back to what it was. *)
Theorem register_then_deregister (id : string) (ws : WebSocket) (w : World) :
  fst ((addConnection id ws ;; removeConnection id ;; getConnection id) w)
  = Normal None
  /\ (map_get id (connections w) = None ->
      (addConnection id ws ;; removeConnection id) w = (Normal tt, w)).
Proof.
  destruct w as [conns tr].
  unfold bind, addConnection, removeConnection, getConnection; simpl.
  split.
  - now rewrite map_get_delete_same.
  - intros Habsent. now rewrite map_delete_set_absent.
Qed.

Lemma register_then_deregister_witness :
  map_get "c" (connections two_open) = None
  /\ (addConnection "c" (open_socket "C") ;; removeConnection "c") two_open
     = (Normal tt, two_open).
Proof.
  split; [reflexivity|].
  refine (proj2 (register_then_deregister "c" (open_socket "C") two_open) _).
  reflexivity.
Defined.

(** X3. Deregistering one id leaves the lookup of every other id as it
    was. *)
Theorem removeConnection_frames_other_ids (id other : string) (w : World) :
  other <> id ->
  fst ((removeConnection id ;; getConnection other) w)
  = fst (getConnection other w).
Proof.
  intros Hne. unfold bind, removeConnection, getConnection; simpl.
  now rewrite map_get_delete_other.
Qed.

Lemma removeConnection_frames_other_ids_witness :
  "b" <> "a"
  /\ fst ((removeConnection "a" ;; getConnection "b") two_open)
     = Normal (Some (open_socket "B")).
Proof.
  assert (Hne : "b" <> "a") by discriminate.
  split; [exact Hne|].
  exact (removeConnection_frames_other_ids "a" "b" two_open Hne).
Defined.

Lemma after_calls_wf (calls : list RegistryCall) (w : World) :
  map_wf (connections w) -> map_wf (connections (after_calls calls w)).
Proof.
  revert w. induction calls as [|c rest IH]; intros w Hwf; [exact Hwf|].
  cbn [after_calls]. apply IH.
  destruct c as [id ws | id]; simpl.
  - now apply map_set_wf.
  - now apply map_delete_wf.
Qed.

(** X4. Whatever sequence of registrations and deregistrations the module
    has seen since it was loaded, no id is registered twice, and every
    entry that a broadcast goes through is the channel the lookup of its id
    returns. *)
Theorem registry_ids_stay_unique (calls : list RegistryCall) :
  let w := after_calls calls initial_world in
  NoDup (map fst (connections w))
  /\ forall id ws, In (id, ws) (connections w) ->
       fst (getConnection id w) = Normal (Some ws).
Proof.
  assert (Hwf : map_wf (connections (after_calls calls initial_world))).
  { apply after_calls_wf. constructor. }
  split; [exact Hwf|].
  intros id ws Hin. unfold getConnection; simpl.
  now rewrite (map_get_in_wf id ws _ Hwf Hin).
Qed.

(** X5. Where a registration puts the connection in the order that
    [broadcast] follows: a new id goes to the end, and an id that is
    already registered keeps its place (the ids and their order do not
    change, only the channel does). *)
Theorem addConnection_order (id : string) (ws : WebSocket) (w : World) :
  (map_get id (connections w) = None ->
     connections (snd (addConnection id ws w)) = connections w ++ [(id, ws)])
  /\ (map_get id (connections w) <> None ->
     map fst (connections (snd (addConnection id ws w)))
     = map fst (connections w)).
Proof.
  unfold addConnection; simpl. split.
  - apply map_set_absent.
  - apply map_set_present_keys.
Qed.

Lemma addConnection_order_witness :
  connections (snd (addConnection "c" (open_socket "C") two_open))
  = connections two_open ++ [("c", open_socket "C")]
  /\ map fst (connections (snd (addConnection "a" (closed_socket "A2") two_open)))
     = ["a"; "b"].
Proof.
  split.
  - refine (proj1 (addConnection_order "c" (open_socket "C") two_open) _).
    reflexivity.
  - refine (proj2 (addConnection_order "a" (closed_socket "A2") two_open) _).
    discriminate.
Defined.

(* ------------------------------------------------------------------ *)
(** ** More about the senders *)

Section SenderFacts.

Variable JSON_stringify : JValue -> JValue.
Variable service_outcome : ServiceOp -> string -> JValue -> option Exn.

Lemma keeps_registry_bind {A B} (c : M World A) (k : A -> M World B) :
  keeps_registry c -> (forall a, keeps_registry (k a)) ->
  keeps_registry (x <- c ;; k x).
Proof.
  intros Hc Hk w. unfold bind. specialize (Hc w).
  destruct (c w) as [[a|e] w1]; simpl in *; [| exact Hc].
  now rewrite Hk.
Qed.

Lemma keeps_registry_ret {A} (a : A) : keeps_registry (ret a).
Proof. intros w. reflexivity. Qed.

Lemma keeps_registry_throw {A} (e : Exn) : keeps_registry (@throw World A e).
Proof. intros w. reflexivity. Qed.

Lemma keeps_registry_emit (e : Event) : keeps_registry (emit e).
Proof. intros w. reflexivity. Qed.

Lemma keeps_registry_get_prop (o : JValue) (k : string) :
  keeps_registry (get_prop o k).
Proof. intros w. now destruct o. Qed.

Lemma keeps_registry_ws_send (ws : WebSocket) (payload : JValue) :
  keeps_registry (ws_send ws payload).
Proof.
  intros w. unfold ws_send, bind, emit; simpl.
  now destruct (send_outcome ws payload).
Qed.

Lemma keeps_registry_call_service (op : ServiceOp) (id : string) (payload : JValue) :
  keeps_registry (call_service service_outcome op id payload).
Proof.
  intros w. unfold call_service, bind, emit; simpl.
  now destruct (service_outcome op id payload).
Qed.

Lemma keeps_registry_broadcast (msg : JValue) :
  keeps_registry (broadcast JSON_stringify msg).
Proof.
  intros [conns tr]. unfold broadcast; simpl.
  apply forEach_keeps_connections.
Qed.

Lemma keeps_registry_sendToConnection (id : string) (msg : JValue) :
  keeps_registry (sendToConnection JSON_stringify id msg).
Proof.
  intros [conns tr]. unfold sendToConnection, getConnection.
  unfold bind at 1; simpl.
  destruct (map_get id conns) as [ws|]; [| reflexivity].
  now rewrite callback_round.
Qed.

Lemma keeps_registry_handleUserMessage (id : string) (data : JValue) :
  keeps_registry (handleUserMessage JSON_stringify service_outcome id data).
Proof.
  unfold handleUserMessage.
  repeat first
    [ apply keeps_registry_get_prop
    | apply keeps_registry_call_service
    | apply keeps_registry_broadcast
    | apply keeps_registry_ret
    | match goal with |- keeps_registry (if ?b then _ else _) => destruct b end
    | apply keeps_registry_bind; [| intros ?] ].
Qed.

Lemma keeps_registry_handleProductMessage (id : string) (data : JValue) :
  keeps_registry (handleProductMessage JSON_stringify service_outcome id data).
Proof.
  unfold handleProductMessage.
  repeat first
    [ apply keeps_registry_get_prop
    | apply keeps_registry_call_service
    | apply keeps_registry_broadcast
    | apply keeps_registry_ret
    | match goal with |- keeps_registry (if ?b then _ else _) => destruct b end
    | apply keeps_registry_bind; [| intros ?] ].
Qed.

Lemma keeps_registry_route (ev : RouteEvent) :
  keeps_registry (route JSON_stringify service_outcome ev).
Proof.
  destruct ev as [ws | ws [ty id data] | ws]; simpl.
  - unfold open. apply keeps_registry_bind; [apply keeps_registry_emit|].
    intros _. apply keeps_registry_ws_send.
  - unfold message; simpl.
    destruct (ty =? "user"); [apply keeps_registry_handleUserMessage|].
    destruct (ty =? "product"); [apply keeps_registry_handleProductMessage|].
    apply keeps_registry_emit.
  - apply keeps_registry_emit.
Qed.

(** X6. Only [addConnection] and [removeConnection] change the registry:
    the two senders, the two message handlers and the three handlers of the
    [/ws] route leave it exactly as it was, whether they return or throw.
    In particular the route never registers the connection that opens and
    never deregisters the one that closes. *)
Theorem senders_and_handlers_keep_registry
    (ws : WebSocket) (id : string) (msg : JValue) (envelope : Envelope) :
  keeps_registry (sendToConnection JSON_stringify id msg)
  /\ keeps_registry (broadcast JSON_stringify msg)
  /\ keeps_registry (handleUserMessage JSON_stringify service_outcome id msg)
  /\ keeps_registry (handleProductMessage JSON_stringify service_outcome id msg)
  /\ keeps_registry (open ws)
  /\ keeps_registry (message JSON_stringify service_outcome ws envelope)
  /\ keeps_registry (close ws).
Proof.
  refine (conj _ (conj _ (conj _ (conj _ (conj _ (conj _ _)))))).
  - apply keeps_registry_sendToConnection.
  - apply keeps_registry_broadcast.
  - apply keeps_registry_handleUserMessage.
  - apply keeps_registry_handleProductMessage.
  - apply (keeps_registry_route (Opened ws)).
  - apply (keeps_registry_route (Received ws envelope)).
  - apply (keeps_registry_route (Closed ws)).
Qed.

(** X7. [broadcast] returns normally exactly when the [send] of every
    registered connection accepts the serialized message; otherwise it
    throws. *)
Theorem broadcast_returns_iff_all_accept (msg : JValue) (w : World) :
  fst (broadcast JSON_stringify msg w) = Normal tt
  <-> Forall (accepts (JSON_stringify msg)) (connections w).
Proof.
  destruct w as [conns tr]; unfold broadcast; simpl. split.
  - intros Hnormal.
    destruct (first_throw_or_none (JSON_stringify msg) conns)
      as [Hall | (pre & k & ws & e & post & -> & Hpre & Hthrow)];
      [exact Hall|].
    rewrite (forEach_first_throw JSON_stringify msg pre post _ k ws e tr Hpre Hthrow)
      in Hnormal.
    discriminate Hnormal.
  - intros Hall. now rewrite (forEach_all_accept JSON_stringify msg conns conns tr Hall).
Qed.

(** X8. Whatever the registered connections do, the writes of one
    [broadcast] go to an initial stretch of the registry, in registry
    order, one write per entry, all with the text [JSON.stringify] gives
    for the message, and the message is serialized as many times as there
    are writes.  So a broadcast never writes to a channel that is not
    registered, never writes to one entry twice and never writes two
    different texts. *)
Theorem broadcast_writes_a_prefix (msg : JValue) (w : World) :
  exists n,
    n <= length (connections w)
    /\ writes (trace (snd (broadcast JSON_stringify msg w)))
       = writes (trace w)
         ++ map (fun entry => (snd entry, JSON_stringify msg))
                (firstn n (connections w))
    /\ serializations (trace (snd (broadcast JSON_stringify msg w)))
       = serializations (trace w) ++ repeat msg n.
Proof.
  destruct w as [conns tr]; unfold broadcast; simpl.
  destruct (first_throw_or_none (JSON_stringify msg) conns)
    as [Hall | (pre & k & ws & e & post & -> & Hpre & Hthrow)].
  - exists (length conns). split; [apply le_n|].
    rewrite (forEach_all_accept JSON_stringify msg conns conns tr Hall); simpl.
    rewrite writes_app, serializations_app, writes_rounds, serializations_rounds.
    rewrite firstn_all. split; [reflexivity|].
    f_equal. clear. induction conns as [|c rest IH]; simpl; [reflexivity|].
    now rewrite IH.
  - exists (length (pre ++ [(k, ws)])). split.
    + rewrite !length_app; simpl. apply PeanoNat.Nat.add_le_mono_l.
      apply le_n_S, le_0_n.
    + rewrite (forEach_first_throw JSON_stringify msg pre post _ k ws e tr Hpre Hthrow);
        simpl.
      rewrite writes_app, serializations_app, writes_rounds, serializations_rounds.
      replace (pre ++ (k, ws) :: post) with ((pre ++ [(k, ws)]) ++ post)
        by (now rewrite <- app_assoc).
      rewrite firstn_app, firstn_all, PeanoNat.Nat.sub_diag; simpl.
      rewrite app_nil_r. split; [reflexivity|].
      f_equal. generalize (pre ++ [(k, ws)]). clear.
      intros l. induction l as [|c rest IH]; simpl; [reflexivity|].
      now rewrite IH.
Qed.

(** X9. A unicast that follows a registration goes to the channel just
    registered and to no other: it serializes the message and calls [send]
    on that channel once, whatever channel the id held before. *)
Theorem register_then_send (id : string) (ws : WebSocket) (msg : JValue) (w : World) :
  (addConnection id ws ;; sendToConnection JSON_stringify id msg) w
  = (match send_outcome ws (JSON_stringify msg) with
     | None => Normal tt
     | Some e => Abrupt e
     end,
     mkWorld (map_set id ws (connections w))
       (trace w ++ [Stringify msg; Send ws (JSON_stringify msg)])).
Proof.
  destruct w as [conns tr].
  unfold bind at 1, addConnection; simpl.
  unfold sendToConnection, getConnection. unfold bind at 1; simpl.
  rewrite map_get_set_same. apply callback_round.
Qed.

(** X10. A unicast that follows the deregistration of its id writes to no
    channel: it logs that no connection was found and returns normally. *)
Theorem deregister_then_send (id : string) (msg : JValue) (w : World) :
  (removeConnection id ;; sendToConnection JSON_stringify id msg) w
  = (Normal tt,
     mkWorld (map_delete id (connections w))
       (trace w ++ [Log [JStr ("No connection found for id: " ++ id)%string]])).
Proof.
  destruct w as [conns tr].
  unfold bind at 1, removeConnection; simpl.
  unfold sendToConnection, getConnection. unfold bind at 1; simpl.
  now rewrite map_get_delete_same.
Qed.

End SenderFacts.

(* ------------------------------------------------------------------ *)
(** ** More about the message handlers and the route *)

Section HandlerFacts.

Variable JSON_stringify : JValue -> JValue.
Variable service_outcome : ServiceOp -> string -> JValue -> option Exn.

Lemma handleUserMessage_resolved (id : string) (data : JValue) (w : World) :
  nullish data = false ->
  handleUserMessage JSON_stringify service_outcome id data w
  = (match user_service_for (prop_of data "action") with
     | Some op => call_service service_outcome op id (prop_of data "payload")
     | None => ret tt
     end ;;
     broadcast JSON_stringify
       (updated_envelope "user" "user_updated" id (prop_of data "payload"))) w.
Proof.
  intros Hdata.
  destruct data; try discriminate Hdata;
    cbv [handleUserMessage user_service_for get_prop prop_of bind ret];
    cbn [strict_eq_str];
    repeat match goal with
           | |- context [strict_eq_str ?a ?t] => destruct (strict_eq_str a t)
           end; reflexivity.
Qed.

Lemma handleProductMessage_resolved (id : string) (data : JValue) (w : World) :
  nullish data = false ->
  handleProductMessage JSON_stringify service_outcome id data w
  = (match product_service_for (prop_of data "action") with
     | Some op => call_service service_outcome op id (prop_of data "payload")
     | None => ret tt
     end ;;
     broadcast JSON_stringify
       (updated_envelope "product" "product_updated" id (prop_of data "payload"))) w.
Proof.
  intros Hdata.
  destruct data; try discriminate Hdata;
    cbv [handleProductMessage product_service_for get_prop prop_of bind ret];
    cbn [strict_eq_str];
    repeat match goal with
           | |- context [strict_eq_str ?a ?t] => destruct (strict_eq_str a t)
           end; reflexivity.
Qed.

Lemma handlers_throw_on_nullish (id : string) (data : JValue) (w : World) :
  nullish data = true ->
  exists msg,
    handleUserMessage JSON_stringify service_outcome id data w
    = (Abrupt (TypeError msg), w)
    /\ handleProductMessage JSON_stringify service_outcome id data w
       = (Abrupt (TypeError msg), w).
Proof.
  intros Hdata. destruct data; try discriminate Hdata.
  - eexists; split; reflexivity.
  - eexists; split; reflexivity.
Qed.

(** X11. On data that is neither [null] nor [undefined], each handler ends
    in the broadcast of its one event -- "user_updated" or
    "product_updated" with the id and [data.payload] -- whatever the
    action is: a service is called first only when the action is "update"
    or "create", and an envelope with any other action, or with none, is
    still broadcast to the registered connections. *)
Theorem handlers_broadcast_whatever_the_action
    (id : string) (data : JValue) (w : World) :
  nullish data = false ->
  handleUserMessage JSON_stringify service_outcome id data w
  = (match user_service_for (prop_of data "action") with
     | Some op => call_service service_outcome op id (prop_of data "payload")
     | None => ret tt
     end ;;
     broadcast JSON_stringify
       (updated_envelope "user" "user_updated" id (prop_of data "payload"))) w
  /\ handleProductMessage JSON_stringify service_outcome id data w
     = (match product_service_for (prop_of data "action") with
        | Some op => call_service service_outcome op id (prop_of data "payload")
        | None => ret tt
        end ;;
        broadcast JSON_stringify
          (updated_envelope "product" "product_updated" id
             (prop_of data "payload"))) w.
Proof.
  intros Hdata. split.
  - now apply handleUserMessage_resolved.
  - now apply handleProductMessage_resolved.
Qed.

(** X12. An envelope of type "user" or "product" whose data is [null] or
    [undefined] makes the message handler of the route throw a TypeError
    before it has done anything: no service is called, nothing is logged
    and nothing is written. *)
Theorem message_throws_on_nullish_data
    (ws : WebSocket) (ty id : string) (data : JValue) (w : World) :
  nullish data = true ->
  ty = "user" \/ ty = "product" ->
  exists msg,
    message JSON_stringify service_outcome ws (mkEnvelope ty id data) w
    = (Abrupt (TypeError msg), w).
Proof.
  intros Hdata Hty.
  destruct (handlers_throw_on_nullish id data w Hdata) as [msg [Hu Hp]].
  exists msg. destruct Hty as [-> | ->]; unfold message; simpl; assumption.
Qed.

(** X13. When the service call of a handler throws, the handler stops
    there: the thrown value leaves the handler, and nothing is serialized
    or written -- the event is not broadcast. *)
Theorem service_failure_prevents_broadcast
    (id : string) (data : JValue) (op : ServiceOp) (e : Exn) (w : World) :
  nullish data = false ->
  service_outcome op id (prop_of data "payload") = Some e ->
  (user_service_for (prop_of data "action") = Some op ->
     handleUserMessage JSON_stringify service_outcome id data w
     = (Abrupt e,
        mkWorld (connections w)
          (trace w ++ [ServiceCall op id (prop_of data "payload")])))
  /\ (product_service_for (prop_of data "action") = Some op ->
     handleProductMessage JSON_stringify service_outcome id data w
     = (Abrupt e,
        mkWorld (connections w)
          (trace w ++ [ServiceCall op id (prop_of data "payload")]))).
Proof.
  intros Hdata Hthrow. split; intros Hop.
  - rewrite handleUserMessage_resolved by assumption. rewrite Hop.
    unfold bind at 1, call_service, bind at 1, emit; simpl.
    now rewrite Hthrow.
  - rewrite handleProductMessage_resolved by assumption. rewrite Hop.
    unfold bind at 1, call_service, bind at 1, emit; simpl.
    now rewrite Hthrow.
Qed.

End HandlerFacts.

Section RouteFacts.

Variable JSON_stringify : JValue -> JValue.
Variable service_outcome : ServiceOp -> string -> JValue -> option Exn.

Lemma broadcast_empty_registry (msg : JValue) (tr : list Event) :
  broadcast JSON_stringify msg (mkWorld [] tr) = (Normal tt, mkWorld [] tr).
Proof. reflexivity. Qed.

Lemma service_then_broadcast_writes_nothing
      (called : option ServiceOp) (id : string) (payload msg : JValue)
      (tr : list Event) :
  writes (trace (snd ((match called with
                       | Some op => call_service service_outcome op id payload
                       | None => ret tt
                       end ;;
                       broadcast JSON_stringify msg) (mkWorld [] tr))))
  = writes tr.
Proof.
  destruct called as [op|]; unfold bind at 1.
  - unfold call_service, bind at 1, emit; simpl.
    destruct (service_outcome op id payload); simpl;
      now rewrite writes_app, app_nil_r.
  - reflexivity.
Qed.

Lemma route_writes_on_empty_registry (ev : RouteEvent) (tr : list Event) :
  writes (trace (snd (route JSON_stringify service_outcome ev (mkWorld [] tr))))
  = writes tr ++ welcomes [ev].
Proof.
  destruct ev as [ws | ws [ty id data] | ws]; cbn [route welcomes flat_map].
  - unfold open, console_log, ws_send, bind, emit; simpl.
    destruct (send_outcome ws _); simpl;
      now rewrite !writes_app, <- app_assoc.
  - rewrite app_nil_r. unfold message; simpl.
    destruct (ty =? "user"); [| destruct (ty =? "product")].
    + destruct (nullish data) eqn:Hdata.
      * destruct (handlers_throw_on_nullish JSON_stringify service_outcome
                    id data (mkWorld [] tr) Hdata) as [msg [-> _]].
        reflexivity.
      * rewrite handleUserMessage_resolved by assumption.
        apply service_then_broadcast_writes_nothing.
    + destruct (nullish data) eqn:Hdata.
      * destruct (handlers_throw_on_nullish JSON_stringify service_outcome
                    id data (mkWorld [] tr) Hdata) as [msg [_ ->]].
        reflexivity.
      * rewrite handleProductMessage_resolved by assumption.
        apply service_then_broadcast_writes_nothing.
    + unfold console_log, emit; simpl. now rewrite writes_app, app_nil_r.
  - rewrite app_nil_r. unfold close, console_log, emit; simpl.
    now rewrite writes_app, app_nil_r.
Qed.

Lemma after_events_on_empty_registry (events : list RouteEvent) (w : World) :
  connections w = [] ->
  connections (after_events JSON_stringify service_outcome events w) = []
  /\ writes (trace (after_events JSON_stringify service_outcome events w))
     = writes (trace w) ++ welcomes events.
Proof.
  revert w. induction events as [|ev rest IH]; intros w Hempty.
  - simpl. now rewrite app_nil_r.
  - cbn [after_events].
    assert (Hkept : connections (snd (route JSON_stringify service_outcome ev w)) = []).
    { rewrite (keeps_registry_route JSON_stringify service_outcome ev w).
      exact Hempty. }
    destruct (IH _ Hkept) as [Hconns Hwrites].
    split; [exact Hconns|].
    rewrite Hwrites. destruct w as [conns tr]; simpl in Hempty; subst conns.
    rewrite route_writes_on_empty_registry.
    replace (welcomes (ev :: rest)) with (welcomes [ev] ++ welcomes rest)
      by (unfold welcomes; simpl; now rewrite app_nil_r).
    now rewrite <- app_assoc.
Qed.

(** X14. The [/ws] route on its own never delivers an event to a client.
    From the moment the module is loaded, whatever connections open, send
    envelopes and close, the registry stays empty and the only writes are
    the welcome objects that [open] sends to the connection that opened:
    no "user_updated" or "product_updated" text is written to anyone,
    because nothing in websocket.js registers a connection. *)
Theorem route_alone_writes_only_welcomes (events : list RouteEvent) :
  connections (after_events JSON_stringify service_outcome events initial_world)
  = []
  /\ writes (trace (after_events JSON_stringify service_outcome events
                                 initial_world))
     = welcomes events.
Proof. now apply after_events_on_empty_registry. Qed.

End RouteFacts.

Lemma handlers_broadcast_whatever_the_action_witness :
  handleUserMessage JSON_stringify_ref services_return
                    (id subscribe_12345) (data subscribe_12345) two_open
  = (Normal tt,
     mkWorld (connections two_open)
       (flat_map (round (updated_envelope "user" "user_updated" "12345" JUndefined)
                        (JSON_stringify_ref
                           (updated_envelope "user" "user_updated" "12345"
                                             JUndefined)))
                 (connections two_open))).
Proof.
  rewrite (proj1 (handlers_broadcast_whatever_the_action
                    JSON_stringify_ref services_return
                    (id subscribe_12345) (data subscribe_12345) two_open
                    eq_refl)).
  reflexivity.
Defined.

Lemma message_throws_on_nullish_data_witness :
  exists msg,
    message JSON_stringify_ref services_return (open_socket "A")
            (mkEnvelope "user" "42" JNull) two_open
    = (Abrupt (TypeError msg), two_open).
Proof.
  exact (message_throws_on_nullish_data
           JSON_stringify_ref services_return (open_socket "A")
           "user" "42" JNull two_open eq_refl (or_introl eq_refl)).
Defined.

Lemma service_failure_prevents_broadcast_witness :
  handleUserMessage JSON_stringify_ref services_fail
                    (id create_ann) (data create_ann) two_open
  = (Abrupt (Error "storage unavailable"),
     mkWorld (connections two_open)
             [ServiceCall userService_createUser "42" ann]).
Proof.
  exact (proj1 (service_failure_prevents_broadcast
                  JSON_stringify_ref services_fail
                  (id create_ann) (data create_ann) userService_createUser
                  (Error "storage unavailable") two_open eq_refl eq_refl)
               eq_refl).
Defined.

(* ------------------------------------------------------------------ *)
(** ** The variant of websocket.js built on the ws library *)


Section WsLibraryFacts.

Variable JSON_stringify : JValue -> JValue.
Variable JSON_parse : string -> Completion JValue.


End WsLibraryFacts.

(* ------------------------------------------------------------------ *)
(** ** The heartbeat job and the database connection *)

Section CronFacts.

Variable JSON_stringify : JValue -> JValue.

Lemma each_log_text (line_prefix : string) (items : list JValue) (c : Console) :
  each (fun x => log_text (line_prefix ++ to_string (JSON_stringify x))%string)
       items c
  = (Normal tt,
     c ++ map (fun x =>
                 ConsoleLog (line_prefix ++ to_string (JSON_stringify x))%string)
              items).
Proof.
  revert c. induction items as [|x rest IH]; intros c.
  - simpl. now rewrite app_nil_r.
  - cbn [each map]. unfold bind, log_text. rewrite IH.
    now rewrite <- app_assoc.
Qed.

Lemma block_prints (line_prefix error_label : string)
      (outcome : Completion JValue) (c : Console) :
  try_catch
    (v <- await outcome ;;
     array_forEach v
       (fun x => log_text (line_prefix ++ to_string (JSON_stringify x))%string))
    (fun error => console_error error_label error) c
  = (Normal tt, c ++ block_lines JSON_stringify line_prefix error_label outcome).
Proof.
  unfold try_catch, bind, await, block_lines.
  destruct outcome as [v|e]; [| reflexivity].
  destruct v; try reflexivity.
  unfold array_forEach. now rewrite each_log_text.
Qed.

(** X17. The heartbeat job never throws, and its three checks do not
    depend on one another: after the line "Heartbeat" it prints the lines
    of the user check, then those of the product check, then those of the
    notifications, each block being one line per element when its service
    call resolved to an array and one error line when the call rejected or
    resolved to something that has no [forEach].  A failure in one block
    does not keep the later blocks from running. *)
Theorem run_prints_every_block
    (users products notifications : Completion JValue) (c : Console) :
  run JSON_stringify users products notifications c
  = (Normal tt,
     c ++ ConsoleLog "Heartbeat"
       :: block_lines JSON_stringify "User update: "
            "Error checking for user updates:" users
       ++ block_lines JSON_stringify "Product update: "
            "Error checking for product updates:" products
       ++ block_lines JSON_stringify "Sending notification: "
            "Error sending notifications:" notifications).
Proof.
  unfold run. unfold bind at 1, log_text at 1.
  unfold bind at 1. rewrite block_prints.
  unfold bind at 1. rewrite block_prints.
  rewrite block_prints.
  now rewrite <- !app_assoc.
Qed.

End CronFacts.

(** X18. [connectToDatabase] never throws: it prints the line
    "====== MongoDB connected ======" when the connection is made and one
    error line with the reason when it is not, and returns normally in
    both cases, so the application goes on to start without a database. *)
Theorem connectToDatabase_never_throws
    (mongoose_connect : Completion JValue) (c : Console) :
  connectToDatabase mongoose_connect c
  = (Normal tt,
     c ++ [match mongoose_connect with
           | Normal _ => ConsoleLog "====== MongoDB connected ======"
           | Abrupt e => ConsoleError "MongoDB connection error:" e
           end]).
Proof.
  unfold connectToDatabase, try_catch, bind, await.
  now destruct mongoose_connect.
Qed.


(* ------------------------------------------------------------------ *)
(** ** POST /users/create *)

(** X19. The answer of POST /users/create carries exactly the fields [id],
    [name] and [email], taken from [_id], [name] and [email] of what the
    service resolved to; no other field of the stored user leaves the
    handler.  A rejection of the service leaves the handler as it is, and
    a service that resolves to [null] or [undefined] makes it throw a
    TypeError. *)
Theorem users_create_projects_three_fields
    (S : Type) (services_createUser : JValue -> Completion JValue)
    (body : JValue) (s : S) :
  (forall user, services_createUser body = Normal user ->
     nullish user = false ->
     users_create services_createUser body s
     = (Normal (JObj [("id", prop_of user "_id");
                      ("name", prop_of user "name");
                      ("email", prop_of user "email")]), s))
  /\ (forall user, services_createUser body = Normal user ->
      nullish user = true ->
      exists msg,
        users_create services_createUser body s = (Abrupt (TypeError msg), s))
  /\ (forall e, services_createUser body = Abrupt e ->
      users_create services_createUser body s = (Abrupt e, s)).
Proof.
  unfold users_create, await.
  refine (conj _ (conj _ _)).
  - intros user -> Huser. unfold bind at 1.
    now destruct user; try discriminate Huser.
  - intros user -> Huser. unfold bind at 1.
    destruct user; try discriminate Huser; eexists; reflexivity.
  - intros e ->. reflexivity.
Qed.

Lemma users_create_projects_three_fields_witness :
  users_create (fun _ => Normal stored_ann) ann tt
  = (Normal (JObj [("id", JStr "u1"); ("name", JStr "Ann");
                   ("email", JStr "ann@example.org")]), tt).
Proof.
  exact (proj1 (users_create_projects_three_fields
                  unit (fun _ => Normal stored_ann) ann tt)
               stored_ann eq_refl eq_refl).
Defined.

(* ------------------------------------------------------------------ *)
(** ** More about the organisation routes *)

Section OrganisationRouteFacts.

Variable Db : Type.
Variable OrganizationModel_find : M Db JValue.
Variable OrganizationModel_findById : string -> M Db JValue.
Variable OrganizationModel_deleteOne : string -> M Db JValue.
Variable OrganizationModel_create : JValue -> M Db JValue.

Local Abbreviation routes :=
  (organizationController OrganizationModel_find OrganizationModel_findById
     OrganizationModel_deleteOne OrganizationModel_create).

(** X20. Which routes can throw.  The by-id and delete routes never let
    an exception out, whatever the storage does; the list and create routes
    have no handler for a failing storage call and throw exactly what
    [find] or [create] rejects with.  In both of these the handler answers
    what the call resolved to and leaves [set.status] untouched. *)
Theorem routes_throw_only_on_list_and_create
    (req : Request) (e : Exn) (ctx : Context Db) :
  (fst (routes req ctx) = Abrupt e
   <-> match req with
       | GET_all => fst (OrganizationModel_find (db ctx)) = Abrupt e
       | POST_create body =>
           fst (OrganizationModel_create body (db ctx)) = Abrupt e
       | GET_by_id _ | POST_delete _ => False
       end)
  /\ routes GET_all ctx
     = (fst (OrganizationModel_find (db ctx)),
        mkContext (snd (OrganizationModel_find (db ctx))) (set_status ctx))
  /\ (forall body,
        routes (POST_create body) ctx
        = (fst (OrganizationModel_create body (db ctx)),
           mkContext (snd (OrganizationModel_create body (db ctx)))
                     (set_status ctx))).
Proof.
  refine (conj _ (conj _ _)); [| | intros body;
    unfold organizationController, await_service, createOrganization;
    now destruct (OrganizationModel_create body (db ctx))].
  - destruct req as [| id | body | id]; unfold organizationController.
    + unfold await_service, getOrganization.
      now destruct (OrganizationModel_find (db ctx)).
    + rewrite bind_await_service.
      unfold getOrganizationById. rewrite try_catch_null.
      destruct (OrganizationModel_findById id (db ctx)) as [[r|e'] d];
        [destruct (truthy r) |]; simpl; split; try discriminate; intros [].
    + unfold await_service, createOrganization.
      now destruct (OrganizationModel_create body (db ctx)).
    + rewrite bind_await_service.
      unfold deleteOrganizationById. rewrite try_catch_null.
      destruct (OrganizationModel_deleteOne id (db ctx)) as [[r|e'] d];
        [destruct (truthy r) |]; simpl; split; try discriminate; intros [].
  - unfold organizationController, await_service, getOrganization.
    now destruct (OrganizationModel_find (db ctx)).
Qed.

(** X21. The only status a route of the controller ever sets is 400: after
    any request, whatever the storage does, [set.status] is what it was or
    is 400, and the list and create routes never touch it. *)
Theorem routes_set_no_status_but_400 (req : Request) (ctx : Context Db) :
  (set_status (snd (routes req ctx)) = set_status ctx
   \/ set_status (snd (routes req ctx)) = 400%Z)
  /\ (match req with
      | GET_all | POST_create _ =>
          set_status (snd (routes req ctx)) = set_status ctx
      | _ => True
      end).
Proof.
  destruct req as [| id | body | id]; unfold organizationController.
  - unfold await_service.
    destruct (getOrganization OrganizationModel_find (db ctx)); simpl; auto.
  - rewrite bind_await_service.
    destruct (getOrganizationById OrganizationModel_findById id (db ctx))
      as [[r|e] d]; simpl; [| auto].
    destruct (truthy r); simpl; auto.
  - unfold await_service.
    destruct (createOrganization OrganizationModel_create body (db ctx));
      simpl; auto.
  - rewrite bind_await_service.
    destruct (deleteOrganizationById OrganizationModel_deleteOne id (db ctx))
      as [[r|e] d]; simpl; [| auto].
    destruct (truthy r); simpl; auto.
Qed.

(** X22. GET /organizations/:id never throws, and a lookup that fails in
    the storage (an id that cannot be cast, a lost connection) is answered
    like an id that is not there: status 400 and
    [{message: "Id not found"}]. *)
Theorem get_by_id_answers_400_on_storage_failure (id : string) (ctx : Context Db) :
  (exists answer, fst (routes (GET_by_id id) ctx) = Normal answer)
  /\ (forall e d,
        OrganizationModel_findById id (db ctx) = (Abrupt e, d) ->
        routes (GET_by_id id) ctx
        = (Normal (JObj [("message", JStr "Id not found")]), mkContext d 400)).
Proof.
  unfold organizationController. rewrite bind_await_service.
  unfold getOrganizationById. rewrite try_catch_null.
  destruct (OrganizationModel_findById id (db ctx)) as [[r|e] d]; split.
  - destruct (truthy r); simpl; eexists; reflexivity.
  - intros e' d' H. discriminate H.
  - simpl. eexists; reflexivity.
  - intros e' d' H. inversion H; subst. reflexivity.
Qed.

(** X23. POST /organizations/delete never throws and has two answers.
    When the storage call rejects, or resolves to a falsy value, it sets
    status 400 and answers the text "Id not found"; when the storage call
    resolves to a truthy value -- any object, whatever it says about the
    number of documents deleted -- it answers
    [{message: "Record Deleted", data: result}] and leaves the status
    alone. *)
Theorem post_delete_two_answers (id : string) (ctx : Context Db) :
  (forall e d,
     OrganizationModel_deleteOne id (db ctx) = (Abrupt e, d) ->
     routes (POST_delete id) ctx
     = (Normal (JStr "Id not found"), mkContext d 400))
  /\ (forall result d,
     OrganizationModel_deleteOne id (db ctx) = (Normal result, d) ->
     routes (POST_delete id) ctx
     = if truthy result then
         (Normal (JObj [("message", JStr "Record Deleted"); ("data", result)]),
          mkContext d (set_status ctx))
       else (Normal (JStr "Id not found"), mkContext d 400)).
Proof.
  unfold organizationController. rewrite bind_await_service.
  unfold deleteOrganizationById. rewrite try_catch_null.
  split.
  - intros e d ->. reflexivity.
  - intros result d ->. now destruct (truthy result).
Qed.

End OrganisationRouteFacts.

Lemma get_by_id_answers_400_on_storage_failure_witness :
  reference_controller (GET_by_id "nope") fresh_context
  = (Normal (JObj [("message", JStr "Id not found")]),
     mkContext (db fresh_context) 400).
Proof.
  exact (proj2 (get_by_id_answers_400_on_storage_failure
                  Collection mongoose_find mongoose_findById
                  mongoose_deleteOne mongoose_create "nope" fresh_context)
               (CastError "nope") (db fresh_context) eq_refl).
Defined.

Lemma post_delete_two_answers_witness :
  reference_controller (POST_delete "nope") fresh_context
  = (Normal (JStr "Id not found"), mkContext (db fresh_context) 400).
Proof.
  exact (proj1 (post_delete_two_answers
                  Collection mongoose_find mongoose_findById
                  mongoose_deleteOne mongoose_create "nope" fresh_context)
               (CastError "nope") (db fresh_context) eq_refl).
Defined.

(* ------------------------------------------------------------------ *)
(** ** Deregistration and the order of the registry *)

Lemma map_get_absent_key {V} (k : string) (m : JsMap V) :
  ~ In k (map fst m) -> map_get k m = None.
Proof.
  induction m as [|[k' v'] rest IH]; simpl; [reflexivity|].
  intros Hnotin. destruct (String.eqb_spec k' k) as [->|Hk].
  - exfalso. apply Hnotin. now left.
  - apply IH. intros Hin. apply Hnotin. now right.
Qed.

Lemma map_delete_present {V} (k : string) (v : V) (m : JsMap V) :
  map_wf m -> map_get k m = Some v ->
  exists pre post, m = pre ++ (k, v) :: post /\ map_delete k m = pre ++ post.
Proof.
  unfold map_wf. induction m as [|[k' v'] rest IH]; simpl; [discriminate|].
  intros Hwf Hget. inversion Hwf as [|? ? Hnotin Hrest]; subst.
  destruct (String.eqb_spec k' k) as [->|Hk].
  - inversion Hget; subst. exists [], rest. split; [reflexivity|].
    apply (map_delete_absent k rest). now apply map_get_absent_key.
  - destruct (IH Hrest Hget) as (pre & post & -> & Hdel).
    exists ((k', v') :: pre), post. split; [reflexivity|].
    unfold map_delete in *; simpl.
    destruct (String.eqb_spec k' k); [contradiction|]. simpl.
    now rewrite Hdel.
Qed.

(** X16. In a registry without duplicate ids, deregistering a registered
    id takes out exactly the entry of that id: the entries before it and
    after it stay, in the order they had, so a later broadcast goes
    through the remaining connections in the same order as before. *)
Theorem removeConnection_takes_out_one_entry
    (id : string) (ws : WebSocket) (w : World) :
  map_wf (connections w) ->
  map_get id (connections w) = Some ws ->
  exists pre post,
    connections w = pre ++ (id, ws) :: post
    /\ connections (snd (removeConnection id w)) = pre ++ post.
Proof.
  intros Hwf Hget. unfold removeConnection; simpl.
  now apply map_delete_present.
Qed.

Lemma removeConnection_takes_out_one_entry_witness :
  exists pre post,
    connections open_closed_open = pre ++ ("b", closed_socket "B") :: post
    /\ connections (snd (removeConnection "b" open_closed_open)) = pre ++ post.
Proof.
  refine (removeConnection_takes_out_one_entry
            "b" (closed_socket "B") open_closed_open _ eq_refl).
  unfold map_wf; simpl.
  repeat constructor; simpl; intuition discriminate.
Defined.
